(** * flask-calc: the safe arithmetic evaluator of [app.py]

    A shallow embedding of [_ops], [_unary_ops], [_eval_node], [safe_eval]
    and of the two request handlers [calculate] and [api_calc], together
    with the part of the Python run time they call into (the numeric tower
    behind [operator.*], [str.strip], [len], [str] and [ast.parse]).

    Conventions.
    - A Python [str] is a [string]; every [ascii] stands for the code point
      of the same number, so the texts covered are those over U+0000..U+00FF.
    - A Python [int] is a [Z], a [float] is a binary64 [spec_float], a
      [complex] is a pair of floats.
    - An exception is a constructor of [exn]; a call that may raise returns a
      [result].
    - The parser follows CPython 3.8 and later, where every literal is an
      [ast.Constant]. *)

From Stdlib Require Import ZArith List String Ascii Bool Lia DecimalString.
From Stdlib Require Import Floats.SpecFloat.
Import ListNotations.

#[local] Open Scope string_scope.
#[local] Open Scope Z_scope.

(** ** Exceptions and results *)

Inductive exn : Type :=
| SyntaxError
| ValueError (msg : string)
| ZeroDivisionError
| OverflowError
| TypeError.

Inductive result (A : Type) : Type :=
| Returns (a : A)
| Raises (e : exn).
Arguments Returns {A} a.
Arguments Raises {A} e.

Definition rbind {A B : Type} (r : result A) (k : A -> result B) : result B :=
  match r with
  | Returns a => k a
  | Raises e => Raises e
  end.

(** ** Binary64 floats *)

Definition float : Type := spec_float.

Module Float.

Definition prec : Z := 53.
Definition emax : Z := 1024.

Definition zero : float := S754_zero false.
Definition nan : float := S754_nan.
Definition inf : float := S754_infinity false.

Definition add : float -> float -> float := SFadd prec emax.
Definition sub : float -> float -> float := SFsub prec emax.
Definition mul : float -> float -> float := SFmul prec emax.
Definition div : float -> float -> float := SFdiv prec emax.
Definition opp : float -> float := SFopp.
Definition abs : float -> float := SFabs.
Definition eqb : float -> float -> bool := SFeqb.
Definition ltb : float -> float -> bool := SFltb.
Definition leb : float -> float -> bool := SFleb.

(** [m * 2^e], rounded to nearest even; the sign of a zero result is [s]. *)
Definition of_scaled (m e : Z) (s : bool) : float :=
  binary_normalize prec emax m e s.

Definition of_Z (n : Z) : float := of_scaled n 0 false.

Definition one : float := of_Z 1.

(** The float nearest to [d * 10^exp10], for [d] positive; 0.0 otherwise. *)
Definition of_decimal (d exp10 : Z) : float :=
  match d with
  | Zpos p =>
      if 0 <=? exp10 then of_Z (d * 10 ^ exp10)
      else div (S754_finite false p 0)
               (S754_finite false (Z.to_pos (10 ^ (- exp10))) 0)
  | _ => zero
  end.

Definition is_nan (x : float) : bool :=
  match x with S754_nan => true | _ => false end.
Definition is_inf (x : float) : bool :=
  match x with S754_infinity _ => true | _ => false end.
Definition is_zero (x : float) : bool :=
  match x with S754_zero _ => true | _ => false end.
Definition is_finite (x : float) : bool :=
  match x with S754_zero _ | S754_finite _ _ _ => true | _ => false end.

(** The sign bit: [copysign(1.0, x) < 0]. *)
Definition signbit (x : float) : bool :=
  match x with
  | S754_zero s | S754_infinity s | S754_finite s _ _ => s
  | S754_nan => false
  end.

Definition copysign_zero (y : float) : float := S754_zero (signbit y).

(** The integer [floor x] of a finite [x]. *)
Definition floorZ (x : float) : Z :=
  match x with
  | S754_finite s m e => Z.shiftl (cond_Zopp s (Zpos m)) e
  | _ => 0
  end.

(** [x == floor(x)]: infinities and zeros are integers, a nan is not. *)
Definition is_integer (x : float) : bool :=
  match x with
  | S754_finite _ m e =>
      if 0 <=? e then true else Z.eqb (Z.land (Zpos m) (Z.ones (- e))) 0
  | S754_nan => false
  | _ => true
  end.

(** C's [floor]. *)
Definition floor (x : float) : float :=
  match x with
  | S754_finite s _ e =>
      if 0 <=? e then x else of_scaled (floorZ x) 0 s
  | _ => x
  end.

(** [DOUBLE_IS_ODD_INTEGER(x)]: [fmod(fabs(x), 2.0) == 1.0]. *)
Definition is_odd_integer (x : float) : bool :=
  match x with
  | S754_finite _ _ _ => is_integer x && Z.odd (floorZ x)
  | _ => false
  end.

(** C's [fmod]: exact, with the sign of [x]. *)
Definition fmod (x y : float) : float :=
  match x, y with
  | S754_nan, _ | _, S754_nan => nan
  | S754_infinity _, _ | _, S754_zero _ => nan
  | _, S754_infinity _ => x
  | S754_zero _, _ => x
  | S754_finite sx mx ex, S754_finite _ my ey =>
      let e := Z.min ex ey in
      let r := Z.rem (Z.shiftl (Zpos mx) (ex - e)) (Z.shiftl (Zpos my) (ey - e)) in
      of_scaled (cond_Zopp sx r) e sx
  end.

End Float.

(** ** The numeric tower behind [operator.*] *)

Definition complex : Type := (float * float)%type.

Inductive value : Type :=
| VInt (n : Z)
| VBool (b : bool)
| VFloat (x : float)
| VComplex (c : complex).

(** What the C library reports through [errno]; [EDOM] stands for every
    value other than [ERANGE]. *)
Inductive errno : Type := ENONE | ERANGE | EDOM.

(** The platform's C library.  [libm_pow x y] is [pow(x, y)] with the
    [errno] it leaves; [c_pow_polar a b] is the polar-form branch of
    [_Py_c_pow] (computed with [hypot], [pow], [atan2], [exp], [log], [cos]
    and [sin]) with the [errno] it leaves.  Neither has an exact
    specification, so both are an environment the evaluation reads. *)
Record libm : Type := {
  libm_pow : float -> float -> float * errno;
  c_pow_polar : complex -> complex -> complex * errno
}.

(** A computation that may raise and may consult the C library. *)
Definition M (A : Type) : Type := libm -> result A.

Definition ret {A : Type} (a : A) : M A := fun _ => Returns a.
Definition raise {A : Type} (e : exn) : M A := fun _ => Raises e.
Definition lift {A : Type} (r : result A) : M A := fun _ => r.
Definition bind {A B : Type} (m : M A) (k : A -> M B) : M B :=
  fun L => match m L with
           | Returns a => k a L
           | Raises e => Raises e
           end.

Declare Scope py_scope.
Delimit Scope py_scope with py.
Notation "x <- m ;; k" := (bind m (fun x => k))
  (at level 61, m at next level, right associativity) : py_scope.
Notation "x <~ r ;; k" := (rbind r (fun x => k))
  (at level 61, r at next level, right associativity) : py_scope.
#[local] Open Scope py_scope.

(** The text of [errno] [EDOM]. *)
Definition domain_error : string := "Numerical argument out of domain".

Module Num.

(** [int] and its subclass [bool]. *)
Definition as_int (v : value) : option Z :=
  match v with
  | VInt n => Some n
  | VBool b => Some (Z.b2z b)
  | _ => None
  end.

Definition is_complex (v : value) : bool :=
  match v with VComplex _ => true | _ => false end.

(** [PyLong_AsDouble]. *)
Definition long_as_double (n : Z) : result float :=
  let x := Float.of_Z n in
  if Float.is_inf x then Raises OverflowError else Returns x.

(** [CONVERT_TO_DOUBLE] on an int, a bool or a float. *)
Definition to_double (v : value) : result float :=
  match v with
  | VInt n => long_as_double n
  | VBool b => long_as_double (Z.b2z b)
  | VFloat x => Returns x
  | VComplex _ => Raises TypeError
  end.

(** [TO_COMPLEX]. *)
Definition to_complex (v : value) : result complex :=
  match v with
  | VComplex c => Returns c
  | _ => x <~ to_double v ;; Returns (x, Float.zero)
  end.

(** *** int *)

(** [long_true_divide]: the quotient rounded once. *)
Definition long_true_divide (a b : Z) : result value :=
  if b =? 0 then Raises ZeroDivisionError
  else
    match a with
    | Z0 => Returns (VFloat (S754_zero (b <? 0)))
    | _ =>
        let q := Float.div (S754_finite (a <? 0) (Z.to_pos (Z.abs a)) 0)
                           (S754_finite (b <? 0) (Z.to_pos (Z.abs b)) 0) in
        if Float.is_inf q then Raises OverflowError else Returns (VFloat q)
    end.

Definition long_floor_div (a b : Z) : result value :=
  if b =? 0 then Raises ZeroDivisionError else Returns (VInt (a / b)).

Definition long_mod (a b : Z) : result value :=
  if b =? 0 then Raises ZeroDivisionError else Returns (VInt (a mod b)).

(** *** float *)

Definition float_div (x y : float) : result value :=
  if Float.eqb y Float.zero then Raises ZeroDivisionError
  else Returns (VFloat (Float.div x y)).

(** [float_rem]. *)
Definition float_rem (vx wx : float) : result value :=
  if Float.eqb wx Float.zero then Raises ZeroDivisionError
  else
    let m := Float.fmod vx wx in
    Returns (VFloat
      (if negb (Float.eqb m Float.zero) then
         if negb (Bool.eqb (Float.ltb wx Float.zero) (Float.ltb m Float.zero))
         then Float.add m wx else m
       else Float.copysign_zero wx)).

(** [_float_div_mod], the quotient. *)
Definition float_floor_div (vx wx : float) : result value :=
  if Float.eqb wx Float.zero then Raises ZeroDivisionError
  else
    let m := Float.fmod vx wx in
    let d := Float.div (Float.sub vx m) wx in
    let d :=
      if negb (Float.eqb m Float.zero) then
        if negb (Bool.eqb (Float.ltb wx Float.zero) (Float.ltb m Float.zero))
        then Float.sub d Float.one else d
      else d in
    Returns (VFloat
      (if negb (Float.eqb d Float.zero) then
         let f := Float.floor d in
         if Float.ltb (Float.of_scaled 1 (-1) false) (Float.sub d f)
         then Float.add f Float.one else f
       else Float.copysign_zero (Float.div vx wx))).


(** [_Py_ADJUST_ERANGE1] and [_Py_ADJUST_ERANGE2]: an infinite result is a
    range error, a finite one clears a range error. *)
Definition adjust_erange (infinite : bool) (e : errno) : errno :=
  if infinite then match e with ENONE => ERANGE | _ => e end
  else match e with ERANGE => ENONE | _ => e end.

(** *** complex *)

Definition c_1 : complex := (Float.one, Float.zero).

Definition c_sum (a b : complex) : complex :=
  (Float.add (fst a) (fst b), Float.add (snd a) (snd b)).

Definition c_diff (a b : complex) : complex :=
  (Float.sub (fst a) (fst b), Float.sub (snd a) (snd b)).

Definition c_neg (a : complex) : complex :=
  (Float.opp (fst a), Float.opp (snd a)).

Definition c_prod (a b : complex) : complex :=
  (Float.sub (Float.mul (fst a) (fst b)) (Float.mul (snd a) (snd b)),
   Float.add (Float.mul (fst a) (snd b)) (Float.mul (snd a) (fst b))).

(** [_Py_c_quot], with the [errno] it leaves. *)
Definition c_quot (a b : complex) : complex * errno :=
  let abs_breal := Float.abs (fst b) in
  let abs_bimag := Float.abs (snd b) in
  if Float.leb abs_bimag abs_breal then
    if Float.eqb abs_breal Float.zero then ((Float.zero, Float.zero), EDOM)
    else
      let ratio := Float.div (snd b) (fst b) in
      let denom := Float.add (fst b) (Float.mul (snd b) ratio) in
      ((Float.div (Float.add (fst a) (Float.mul (snd a) ratio)) denom,
        Float.div (Float.sub (snd a) (Float.mul (fst a) ratio)) denom), ENONE)
  else if Float.leb abs_breal abs_bimag then
    let ratio := Float.div (fst b) (snd b) in
    let denom := Float.add (Float.mul (fst b) ratio) (snd b) in
    ((Float.div (Float.add (Float.mul (fst a) ratio) (snd a)) denom,
      Float.div (Float.sub (Float.mul (snd a) ratio) (fst a)) denom), ENONE)
  else ((Float.nan, Float.nan), ENONE).

Definition complex_div (a b : complex) : result value :=
  let '(q, e) := c_quot a b in
  match e with
  | EDOM => Raises ZeroDivisionError
  | _ => Returns (VComplex q)
  end.

(** [c_powu]: the loop over the bits of [n], lowest first, with [r] the
    product so far and [p] the current square. *)
Fixpoint c_powu_loop (n : positive) (r p : complex) : complex :=
  match n with
  | xH => c_prod r p
  | xO n' => c_powu_loop n' r (c_prod p p)
  | xI n' => c_powu_loop n' (c_prod r p) (c_prod p p)
  end.

Definition c_powu (x : complex) (n : Z) : complex :=
  match n with
  | Zpos n' => c_powu_loop n' c_1 x
  | _ => c_1
  end.

Definition c_powi (x : complex) (n : Z) : complex * errno :=
  if 0 <? n then (c_powu x n, ENONE) else c_quot c_1 (c_powu x (- n)).

(** [_Py_c_pow]. *)
Definition c_pow (a b : complex) (L : libm) : complex * errno :=
  if Float.eqb (fst b) Float.zero && Float.eqb (snd b) Float.zero then
    (c_1, ENONE)
  else if Float.eqb (fst a) Float.zero && Float.eqb (snd a) Float.zero then
    ((Float.zero, Float.zero),
     if negb (Float.eqb (snd b) Float.zero) || Float.ltb (fst b) Float.zero
     then EDOM else ENONE)
  else c_pow_polar L a b.

(** [complex_pow]. *)
Definition complex_pow (a b : complex) : M value := fun L =>
  let '(p, e) :=
    if Float.eqb (snd b) Float.zero
       && Float.eqb (fst b) (Float.floor (fst b))
       && Float.leb (Float.abs (fst b)) (Float.of_Z 100)
    then c_powi a (Float.floorZ (fst b))
    else c_pow a b L in
  match adjust_erange (Float.is_inf (fst p) || Float.is_inf (snd p)) e with
  | EDOM => Raises ZeroDivisionError
  | ERANGE => Raises OverflowError
  | ENONE => Returns (VComplex p)
  end.

(** [float_pow]. *)
Definition float_pow (iv iw : float) : M value := fun L =>
  if Float.eqb iw Float.zero then Returns (VFloat Float.one)
  else if Float.is_nan iv then Returns (VFloat iv)
  else if Float.is_nan iw then
    Returns (VFloat (if Float.eqb iv Float.one then Float.one else iw))
  else if Float.is_inf iw then
    let iv := Float.abs iv in
    if Float.eqb iv Float.one then Returns (VFloat Float.one)
    else if Bool.eqb (Float.ltb Float.zero iw) (Float.ltb Float.one iv)
    then Returns (VFloat (Float.abs iw))
    else Returns (VFloat Float.zero)
  else if Float.is_inf iv then
    let iw_is_odd := Float.is_odd_integer iw in
    if Float.ltb Float.zero iw
    then Returns (VFloat (if iw_is_odd then iv else Float.abs iv))
    else Returns (VFloat (if iw_is_odd then Float.copysign_zero iv else Float.zero))
  else if Float.eqb iv Float.zero then
    if Float.ltb iw Float.zero then Raises ZeroDivisionError
    else Returns (VFloat (if Float.is_odd_integer iw then iv else Float.zero))
  else if Float.ltb iv Float.zero && negb (Float.is_integer iw) then
    complex_pow (iv, Float.zero) (iw, Float.zero) L
  else
    let negate_result := Float.ltb iv Float.zero && Float.is_odd_integer iw in
    let iv := Float.abs iv in
    if Float.eqb iv Float.one
    then Returns (VFloat (if negate_result then Float.opp Float.one else Float.one))
    else
      let '(ix, e) := libm_pow L iv iw in
      let e := adjust_erange (Float.is_inf ix) e in
      let ix := if negate_result then Float.opp ix else ix in
      match e with
      | ENONE => Returns (VFloat ix)
      | ERANGE => Raises OverflowError
      | EDOM => Raises (ValueError "Numerical argument out of domain")
      end.

End Num.

(** ** The [operator] module

    Each function dispatches on the operand types as the interpreter does:
    two ints (or bools) stay in [int]; otherwise a complex operand makes
    the operation complex, and anything else is done on floats. *)

Module operator.

Definition numeric
    (on_int : Z -> Z -> result value)
    (on_float : float -> float -> result value)
    (on_complex : complex -> complex -> result value)
    (a b : value) : result value :=
  match Num.as_int a, Num.as_int b with
  | Some x, Some y => on_int x y
  | _, _ =>
      if Num.is_complex a || Num.is_complex b then
        x <~ Num.to_complex a ;; y <~ Num.to_complex b ;; on_complex x y
      else
        x <~ Num.to_double a ;; y <~ Num.to_double b ;; on_float x y
  end.

(** [complex] has neither [//] nor [%]. *)
Definition real_only
    (on_int : Z -> Z -> result value)
    (on_float : float -> float -> result value)
    (a b : value) : result value :=
  match Num.as_int a, Num.as_int b with
  | Some x, Some y => on_int x y
  | _, _ =>
      if Num.is_complex a || Num.is_complex b then Raises TypeError
      else x <~ Num.to_double a ;; y <~ Num.to_double b ;; on_float x y
  end.

Definition add : value -> value -> result value :=
  numeric (fun x y => Returns (VInt (x + y)))
          (fun x y => Returns (VFloat (Float.add x y)))
          (fun x y => Returns (VComplex (Num.c_sum x y))).

Definition sub : value -> value -> result value :=
  numeric (fun x y => Returns (VInt (x - y)))
          (fun x y => Returns (VFloat (Float.sub x y)))
          (fun x y => Returns (VComplex (Num.c_diff x y))).

Definition mul : value -> value -> result value :=
  numeric (fun x y => Returns (VInt (x * y)))
          (fun x y => Returns (VFloat (Float.mul x y)))
          (fun x y => Returns (VComplex (Num.c_prod x y))).

Definition truediv : value -> value -> result value :=
  numeric Num.long_true_divide Num.float_div Num.complex_div.

Definition floordiv : value -> value -> result value :=
  real_only Num.long_floor_div Num.float_floor_div.

Definition mod_ : value -> value -> result value :=
  real_only Num.long_mod Num.float_rem.

(** [long_pow] leaves a negative exponent to [float_pow]. *)
Definition pow (a b : value) : M value :=
  match Num.as_int a, Num.as_int b with
  | Some x, Some y =>
      if 0 <=? y then ret (VInt (x ^ y))
      else
        iv <- lift (Num.long_as_double x) ;;
        iw <- lift (Num.long_as_double y) ;;
        Num.float_pow iv iw
  | _, _ =>
      if Num.is_complex a || Num.is_complex b then
        x <- lift (Num.to_complex a) ;;
        y <- lift (Num.to_complex b) ;;
        Num.complex_pow x y
      else
        iv <- lift (Num.to_double a) ;;
        iw <- lift (Num.to_double b) ;;
        Num.float_pow iv iw
  end.

Definition pos (a : value) : value :=
  match a with
  | VBool b => VInt (Z.b2z b)
  | _ => a
  end.

Definition neg (a : value) : value :=
  match a with
  | VInt n => VInt (- n)
  | VBool b => VInt (- Z.b2z b)
  | VFloat x => VFloat (Float.opp x)
  | VComplex c => VComplex (Num.c_neg c)
  end.

End operator.

(** ** The syntax tree of the [ast] module *)

Module ast.

(** The value of an [ast.Constant]. *)
Inductive constant : Type :=
| CInt (n : Z)
| CFloat (x : float)
| CImag (x : float)
| CBool (b : bool)
| CStr (s : string)
| CNone
| CEllipsis.

Inductive operator : Type :=
| Add | Sub | Mult | MatMult | Div | Mod | Pow
| LShift | RShift | BitOr | BitXor | BitAnd | FloorDiv.

Inductive unaryop : Type := Invert | Not | UAdd | USub.

Inductive boolop : Type := And | Or.

Inductive cmpop : Type :=
| Eq | NotEq | Lt | LtE | Gt | GtE | Is | IsNot | In | NotIn.

#[warnings="-register-all"] Inductive expr : Type :=
| BinOp (left : expr) (op : operator) (right : expr)
| UnaryOp (op : unaryop) (operand : expr)
| Constant (value : constant)
| Name (id : string)
| Call (func : expr) (args : list expr)
| Attribute (value : expr) (attr : string)
| Subscript (value : expr) (slice : expr)
| Compare (left : expr) (ops : list cmpop) (comparators : list expr)
| BoolOp (op : boolop) (values : list expr)
| Tuple (elts : list expr)
| List (elts : list expr).

End ast.

(** ** The evaluator of [app.py] *)

(** What the source asks of the interpreter it runs on: whether the [ast]
    module still has the deprecated class [Num] (it does before CPython
    3.14) and the limit on the digits of an int converted to a string
    ([sys.get_int_max_str_digits()], 0 for none). *)
Record cpython : Type := {
  ast_has_Num : bool;
  int_max_str_digits : Z
}.

(** CPython 3.11 to 3.13 with its default settings. *)
Definition cpython311 : cpython :=
  {| ast_has_Num := true; int_max_str_digits := 4300 |}.

Definition too_long : string := "Expression too long".
Definition unsupported : string := "Unsupported or unsafe expression".

(** [_ops]: the binary operators of the whitelist. *)
Definition _ops (op : ast.operator) : option (value -> value -> M value) :=
  match op with
  | ast.Add => Some (fun a b => lift (operator.add a b))
  | ast.Sub => Some (fun a b => lift (operator.sub a b))
  | ast.Mult => Some (fun a b => lift (operator.mul a b))
  | ast.Div => Some (fun a b => lift (operator.truediv a b))
  | ast.FloorDiv => Some (fun a b => lift (operator.floordiv a b))
  | ast.Mod => Some (fun a b => lift (operator.mod_ a b))
  | ast.Pow => Some operator.pow
  | _ => None
  end.

(** [_unary_ops]. *)
Definition _unary_ops (op : ast.unaryop) : option (value -> value) :=
  match op with
  | ast.UAdd => Some operator.pos
  | ast.USub => Some operator.neg
  | _ => None
  end.

(** [isinstance(node.value, (int, float))]: [bool] is a subclass of [int]. *)
Definition int_or_float (c : ast.constant) : option value :=
  match c with
  | ast.CInt n => Some (VInt n)
  | ast.CBool b => Some (VBool b)
  | ast.CFloat x => Some (VFloat x)
  | _ => None
  end.

(** [isinstance(node, ast.Num)] on a constant: its value is an int, a float
    or a complex, and not a bool; [node.n] is that value. *)
Definition Num_n (c : ast.constant) : option value :=
  match c with
  | ast.CInt n => Some (VInt n)
  | ast.CFloat x => Some (VFloat x)
  | ast.CImag x => Some (VComplex (Float.zero, x))
  | _ => None
  end.

Section Evaluator.

Variable py : cpython.

Fixpoint _eval_node (node : ast.expr) : M value :=
  let otherwise : M value :=
    match node with
    | ast.Constant c =>
        match int_or_float c with
        | Some v => ret v
        | None =>
            match (if ast_has_Num py then Num_n c else None) with
            | Some v => ret v
            | None => raise (ValueError unsupported)
            end
        end
    | _ => raise (ValueError unsupported)
    end in
  match node with
  | ast.BinOp l op r =>
      match _ops op with
      | Some f =>
          a <- _eval_node l ;;
          b <- _eval_node r ;;
          f a b
      | None => otherwise
      end
  | ast.UnaryOp op operand =>
      match _unary_ops op with
      | Some f => a <- _eval_node operand ;; ret (f a)
      | None => otherwise
      end
  | _ => otherwise
  end.

End Evaluator.

(** ** [ast.parse]: the tokenizer

    The tokenizer and the parser below follow CPython's on the expression
    syntax made of numbers, names, [True], [False], [None], [...], string
    literals without prefix or backslash, parentheses, tuples, lists,
    calls with positional arguments, attributes, subscripts by expressions,
    the unary and binary operators, comparisons, [not], [and] and [or],
    with comments, line continuations and line joining inside brackets.
    Every text on which the source returns a value is of this syntax.  A
    text using anything else (conditional expressions, lambdas,
    comprehensions, dict and set displays, slices, keyword or starred
    arguments, assignment expressions, [await], [yield], prefixed or
    escaped strings) is answered with [SyntaxError] here, where CPython
    may build a node of a class that [_eval_node] rejects.  The limits of
    CPython's parser on nesting are not reached by the texts of at most
    100 characters that [safe_eval] lets through, and are left out. *)

Module Lex.

Definition code (c : ascii) : N := N_of_ascii c.

Definition in_range (lo hi : N) (c : ascii) : bool :=
  (lo <=? code c)%N && (code c <=? hi)%N.

Definition is_char (n : N) (c : ascii) : bool := (code c =? n)%N.

Definition newline : ascii := "010"%char.
Definition dquote : ascii := "034"%char.
Definition squote : ascii := "039"%char.
Definition backslash : ascii := "092"%char.

Definition is_digit (c : ascii) : bool := in_range 48 57 c.
Definition is_octdigit (c : ascii) : bool := in_range 48 55 c.
Definition is_bindigit (c : ascii) : bool := in_range 48 49 c.
Definition is_hexdigit (c : ascii) : bool :=
  is_digit c || in_range 65 70 c || in_range 97 102 c.

Definition digit_value (c : ascii) : Z :=
  if is_digit c then Z.of_N (code c) - 48
  else if in_range 97 102 c then Z.of_N (code c) - 87
  else Z.of_N (code c) - 55.

(** [is_potential_identifier_start] and [is_potential_identifier_char]. *)
Definition ident_start (c : ascii) : bool :=
  in_range 65 90 c || in_range 97 122 c || is_char 95 c || (128 <=? code c)%N.
Definition ident_char (c : ascii) : bool := ident_start c || is_digit c.

(** The characters of U+0080..U+00FF that may start, or continue, an
    identifier ([XID_Start], [XID_Continue]). *)
Definition xid_start_high (c : ascii) : bool :=
  is_char 170 c || is_char 181 c || is_char 186 c
  || in_range 192 214 c || in_range 216 246 c || in_range 248 255 c.
Definition xid_continue_high (c : ascii) : bool :=
  xid_start_high c || is_char 183 c.

Fixpoint all_chars (p : ascii -> bool) (s : string) : bool :=
  match s with
  | EmptyString => true
  | String c s' => p c && all_chars p s'
  end.

(** [verify_identifier]. *)
Definition valid_identifier (s : string) : bool :=
  match s with
  | EmptyString => false
  | String c s' =>
      ((code c <? 128)%N || xid_start_high c)
      && all_chars (fun d => (code d <? 128)%N || xid_continue_high d) s'
  end.

Inductive token : Type :=
| NUMBER (c : ast.constant)
| NAME (id : string)
| STRING (s : string)
| OP (s : string)
| NEWLINE.

(** The longest prefix of characters satisfying [p], and the rest. *)
Fixpoint span (p : ascii -> bool) (s : string) : string * string :=
  match s with
  | String c s' =>
      if p c then let '(a, b) := span p s' in (String c a, b) else (EmptyString, s)
  | EmptyString => (EmptyString, EmptyString)
  end.

(** [tok_decimal_tail], for the digits [isd]: digits, each underscore
    followed by a digit.  The digits come back without the underscores. *)
Fixpoint digits_tail (isd : ascii -> bool) (s : string) : option (string * string) :=
  match s with
  | String c s' =>
      if isd c then
        match digits_tail isd s' with
        | Some (ds, rest) => Some (String c ds, rest)
        | None => None
        end
      else if is_char 95 c then
        match s' with
        | String d s'' =>
            if isd d then
              match digits_tail isd s'' with
              | Some (ds, rest) => Some (String d ds, rest)
              | None => None
              end
            else None
        | EmptyString => None
        end
      else Some (EmptyString, s)
  | EmptyString => Some (EmptyString, EmptyString)
  end.

Fixpoint digits_value (base acc : Z) (s : string) : Z :=
  match s with
  | EmptyString => acc
  | String c s' => digits_value base (acc * base + digit_value c) s'
  end.

(** [verify_end_of_number]: a number may be followed at once by one of the
    keywords [and], [else], [for], [if], [in], [is], [or], [not], and by no
    other identifier character. *)
Definition verify_end_of_number (s : string) : bool :=
  match s with
  | EmptyString => true
  | String c s' =>
      if is_char 97 c then prefix "nd" s'
      else if is_char 101 c then prefix "lse" s'
      else if is_char 102 c then prefix "or" s'
      else if is_char 105 c then prefix "f" s' || prefix "n" s' || prefix "s" s'
      else if is_char 111 c then prefix "r" s'
      else if is_char 110 c then prefix "ot" s'
      else negb (ident_char c)
  end.

(** The float nearest to [digits * 10^exp10] ([PyOS_string_to_double]). *)
Definition float_of_decimal (digits : string) (exp10 : Z) : float :=
  Float.of_decimal (digits_value 10 0 digits) exp10.

(** A literal [0x], [0o] or [0b], from after the letter. *)
Definition scan_radix (isd : ascii -> bool) (base : Z) (s : string)
    : option (token * string) :=
  let s1 := match s with
            | String c s' => if is_char 95 c then s' else s
            | EmptyString => s
            end in
  match s1 with
  | String d s2 =>
      if isd d then
        match digits_tail isd s2 with
        | Some (ds, rest) =>
            if verify_end_of_number rest
            then Some (NUMBER (ast.CInt (digits_value base 0 (String d ds))), rest)
            else None
        | None => None
        end
      else None
  | EmptyString => None
  end.

(** A decimal integer with leading zeros has only zeros. *)
Definition leading_zeros_ok (digits : string) : bool :=
  match digits with
  | String c _ => negb (is_char 48 c) || all_chars (is_char 48) digits
  | EmptyString => true
  end.

(** The end of a decimal literal: an optional [j], then no identifier. *)
Definition scan_suffix (is_float : bool) (digits : string) (exp10 : Z) (s : string)
    : option (token * string) :=
  match s with
  | String c s' =>
      if is_char 106 c || is_char 74 c then
        if verify_end_of_number s'
        then Some (NUMBER (ast.CImag (float_of_decimal digits exp10)), s')
        else None
      else if negb (verify_end_of_number s) then None
      else if is_float
      then Some (NUMBER (ast.CFloat (float_of_decimal digits exp10)), s)
      else if leading_zeros_ok digits
      then Some (NUMBER (ast.CInt (digits_value 10 0 digits)), s)
      else None
  | EmptyString =>
      if is_float
      then Some (NUMBER (ast.CFloat (float_of_decimal digits exp10)), s)
      else if leading_zeros_ok digits
      then Some (NUMBER (ast.CInt (digits_value 10 0 digits)), s)
      else None
  end.

(** The exponent of a decimal literal, if any: [s] starts where an [e]
    could stand; [frac] is the number of digits after the point. *)
Definition scan_exponent (is_float : bool) (digits : string) (frac : Z) (s : string)
    : option (token * string) :=
  match s with
  | String e s1 =>
      if is_char 101 e || is_char 69 e then
        let '(neg, s2, signed) :=
          match s1 with
          | String c s2 =>
              if is_char 43 c then (false, s2, true)
              else if is_char 45 c then (true, s2, true)
              else (false, s1, false)
          | EmptyString => (false, s1, false)
          end in
        match s2 with
        | String d s3 =>
            if is_digit d then
              match digits_tail is_digit s3 with
              | Some (ds, rest) =>
                  let n := digits_value 10 0 (String d ds) in
                  scan_suffix true digits ((if neg then - n else n) - frac) rest
              | None => None
              end
            else if signed then None
            else scan_suffix is_float digits (- frac) s
        | EmptyString =>
            if signed then None else scan_suffix is_float digits (- frac) s
        end
      else scan_suffix is_float digits (- frac) s
  | EmptyString => scan_suffix is_float digits (- frac) s
  end.

(** The fraction of a decimal literal, from after the point. *)
Definition scan_fraction (int_digits : string) (s : string) : option (token * string) :=
  match s with
  | String d s' =>
      if is_digit d then
        match digits_tail is_digit s' with
        | Some (ds, rest) =>
            scan_exponent true (int_digits ++ String d ds)
                          (Z.of_nat (String.length (String d ds))) rest
        | None => None
        end
      else scan_exponent true int_digits 0 s
  | EmptyString => scan_exponent true int_digits 0 s
  end.

(** A number, from its first character: a digit, or a point before a digit. *)
Definition scan_number (s : string) : option (token * string) :=
  match s with
  | String c s' =>
      if is_char 46 c then scan_fraction EmptyString s'
      else
        let radix :=
          if is_char 48 c then
            match s' with
            | String x s'' =>
                if is_char 120 x || is_char 88 x then Some (scan_radix is_hexdigit 16 s'')
                else if is_char 111 x || is_char 79 x then Some (scan_radix is_octdigit 8 s'')
                else if is_char 98 x || is_char 66 x then Some (scan_radix is_bindigit 2 s'')
                else None
            | EmptyString => None
            end
          else None in
        match radix with
        | Some r => r
        | None =>
            match digits_tail is_digit s' with
            | Some (ds, rest) =>
                match rest with
                | String p rest' =>
                    if is_char 46 p then scan_fraction (String c ds) rest'
                    else scan_exponent false (String c ds) 0 rest
                | EmptyString => scan_exponent false (String c ds) 0 rest
                end
            | None => None
            end
        end
  | EmptyString => None
  end.

(** A comment: up to the end of the line, which stays. *)
Fixpoint skip_line (s : string) : string :=
  match s with
  | String c s' => if is_char 10 c then s else skip_line s'
  | EmptyString => s
  end.

(** The column a line starts at: a tab goes to the next multiple of 8, a
    form feed back to 0, and after a backslash and a line end the count goes
    on, the first continued column (if not 0) standing for the whole.
    [None] when a backslash is followed by anything but a line end and
    more text. *)
Fixpoint indentation (col cont : Z) (s : string) : option (Z * string) :=
  match s with
  | String c s' =>
      if is_char 32 c then indentation (col + 1) cont s'
      else if is_char 9 c then indentation ((col / 8 + 1) * 8) cont s'
      else if is_char 12 c then indentation 0 cont s'
      else if is_char 92 c then
        match s' with
        | String n s'' =>
            if is_char 10 n then
              match s'' with
              | EmptyString => None
              | _ => indentation col (if cont =? 0 then col else cont) s''
              end
            else None
        | EmptyString => None
        end
      else Some (if cont =? 0 then col else cont, s)
  | EmptyString => Some (if cont =? 0 then col else cont, s)
  end.

(** The body of a string in single quotes [q], and what follows it. *)
Fixpoint scan_short (q : ascii) (s : string) : option (string * string) :=
  match s with
  | String c s' =>
      if Ascii.eqb c q then Some (EmptyString, s')
      else if is_char 10 c || is_char 92 c then None
      else
        match scan_short q s' with
        | Some (body, rest) => Some (String c body, rest)
        | None => None
        end
  | EmptyString => None
  end.

Definition triple (q : ascii) : string := String q (String q (String q EmptyString)).

Fixpoint drop (n : nat) (s : string) : string :=
  match n, s with
  | S n', String _ s' => drop n' s'
  | _, _ => s
  end.

(** The body of a string in triple quotes. *)
Fixpoint scan_long (q : ascii) (s : string) : option (string * string) :=
  match s with
  | String c s' =>
      if prefix (triple q) s then Some (EmptyString, drop 3 s)
      else if is_char 92 c then None
      else
        match scan_long q s' with
        | Some (body, rest) => Some (String c body, rest)
        | None => None
        end
  | EmptyString => None
  end.

(** The prefixes of string literals: [b], [u], [r], [f], [br], [rb], [fr],
    [rf], in either case. *)
Definition is_string_prefix (name : string) : bool :=
  let b c := is_char 98 c || is_char 66 c in
  let u c := is_char 117 c || is_char 85 c in
  let r c := is_char 114 c || is_char 82 c in
  let f c := is_char 102 c || is_char 70 c in
  match name with
  | String c EmptyString => b c || u c || r c || f c
  | String c (String d EmptyString) =>
      (r c && (b d || f d)) || ((b c || f c) && r d)
  | _ => false
  end.

Definition is_quote (c : ascii) : bool := is_char 39 c || is_char 34 c.

Definition starts_with (p : ascii -> bool) (s : string) : bool :=
  match s with
  | String c _ => p c
  | EmptyString => false
  end.

Definition char_op (c : ascii) : token := OP (String c EmptyString).

(** The operators of two characters, and those of one. *)
Definition two_char_ops : list string :=
  ["**"; "//"; "<<"; ">>"; "<="; ">="; "=="; "!="].
Definition one_char_ops : string := "+-*/%@&|^~<>,.".

Fixpoint mem_char (c : ascii) (s : string) : bool :=
  match s with
  | String d s' => Ascii.eqb c d || mem_char c s'
  | EmptyString => false
  end.

Fixpoint tokenize (fuel : nat) (atbol : bool) (level : list ascii) (s : string)
    : option (list token) :=
  let emit (t : token) (r : option (list token)) :=
    match r with
    | Some ts => Some (t :: ts)
    | None => None
    end in
  match fuel with
  | O => None
  | S fuel' =>
      if atbol then
        match indentation 0 0 s with
        | None => None
        | Some (col, s1) =>
            let indented :=
              match level with [] => negb (col =? 0) | _ => false end in
            match s1 with
            | EmptyString => if indented then None else Some []
            | String c s2 =>
                if is_char 35 c then
                  match skip_line s2 with
                  | String _ s3 => tokenize fuel' true level s3
                  | EmptyString => Some []
                  end
                else if is_char 10 c then tokenize fuel' true level s2
                else if indented then None
                else tokenize fuel' false level s1
            end
        end
      else
        match s with
        | EmptyString => Some []
        | String c s' =>
            if is_char 32 c || is_char 9 c || is_char 12 c then
              tokenize fuel' false level s'
            else if is_char 35 c then tokenize fuel' false level (skip_line s')
            else if is_char 10 c then
              match level with
              | [] => emit NEWLINE (tokenize fuel' true level s')
              | _ => tokenize fuel' true level s'
              end
            else if ident_start c then
              let '(name, rest) := span ident_char s in
              if is_string_prefix name && starts_with is_quote rest then None
              else if valid_identifier name
              then emit (NAME name) (tokenize fuel' false level rest)
              else None
            else if is_digit c || (is_char 46 c && starts_with is_digit s') then
              match scan_number s with
              | Some (t, rest) => emit t (tokenize fuel' false level rest)
              | None => None
              end
            else if is_quote c then
              let body :=
                if prefix (String c (String c EmptyString)) s'
                then scan_long c (drop 2 s')
                else scan_short c s' in
              match body with
              | Some (b, rest) => emit (STRING b) (tokenize fuel' false level rest)
              | None => None
              end
            else if is_char 92 c then
              match s' with
              | String n (String d s'') =>
                  if is_char 10 n
                  then tokenize fuel' false level (String d s'')
                  else None
              | _ => None
              end
            else if is_char 40 c || is_char 91 c then
              emit (char_op c) (tokenize fuel' false (c :: level) s')
            else if is_char 41 c || is_char 93 c then
              match level with
              | o :: level' =>
                  if Bool.eqb (is_char 40 o) (is_char 41 c)
                  then emit (char_op c) (tokenize fuel' false level' s')
                  else None
              | [] => None
              end
            else if prefix "..." s then
              emit (OP "...") (tokenize fuel' false level (drop 2 s'))
            else if existsb (fun o => prefix o s) two_char_ops then
              emit (OP (String c (substring 0 1 s')))
                   (tokenize fuel' false level (drop 1 s'))
            else if mem_char c one_char_ops then
              emit (char_op c) (tokenize fuel' false level s')
            else None
        end
  end.

(** [translate_newlines]: a carriage return, with the line feed after it if
    any, is a line end. *)
Fixpoint translate_newlines (s : string) : string :=
  match s with
  | String c s' =>
      if is_char 13 c then
        String newline
          match s' with
          | String d s'' => if is_char 10 d then translate_newlines s''
                            else translate_newlines s'
          | EmptyString => EmptyString
          end
      else String c (translate_newlines s')
  | EmptyString => EmptyString
  end.

Definition tokens (s : string) : option (list token) :=
  let s := translate_newlines s in
  tokenize (2 * String.length s + 2) true [] s.

End Lex.

(** ** [ast.parse]: the parser *)

Module Parse.

Import Lex.
#[local] Open Scope string_scope.

Definition keywords : list string :=
  ["False"; "None"; "True"; "and"; "as"; "assert"; "async"; "await"; "break";
   "class"; "continue"; "def"; "del"; "elif"; "else"; "except"; "finally";
   "for"; "from"; "global"; "if"; "import"; "in"; "is"; "lambda"; "nonlocal";
   "not"; "or"; "pass"; "raise"; "return"; "try"; "while"; "with"; "yield"].

Definition is_keyword (id : string) : bool := existsb (String.eqb id) keywords.

(** What a rule yields: its tree and the tokens left. *)
Definition presult (A : Type) : Type := option (A * list token).

(** The left-associative binary operators, by level: [|], [^], [&], the
    shifts, the sums, the terms. *)
Definition binary_op (lvl : nat) (op : string) : option ast.operator :=
  match lvl with
  | 0%nat => if op =? "|" then Some ast.BitOr else None
  | 1%nat => if op =? "^" then Some ast.BitXor else None
  | 2%nat => if op =? "&" then Some ast.BitAnd else None
  | 3%nat => if op =? "<<" then Some ast.LShift
             else if op =? ">>" then Some ast.RShift else None
  | 4%nat => if op =? "+" then Some ast.Add
             else if op =? "-" then Some ast.Sub else None
  | 5%nat => if op =? "*" then Some ast.Mult
             else if op =? "/" then Some ast.Div
             else if op =? "//" then Some ast.FloorDiv
             else if op =? "%" then Some ast.Mod
             else if op =? "@" then Some ast.MatMult else None
  | _ => None
  end.

Definition unary_op (op : string) : option ast.unaryop :=
  if op =? "+" then Some ast.UAdd
  else if op =? "-" then Some ast.USub
  else if op =? "~" then Some ast.Invert
  else None.

(** A comparison operator at the head of the tokens. *)
Definition compare_op (ts : list token) : option (ast.cmpop * list token) :=
  match ts with
  | OP op :: ts' =>
      if op =? "==" then Some (ast.Eq, ts')
      else if op =? "!=" then Some (ast.NotEq, ts')
      else if op =? "<=" then Some (ast.LtE, ts')
      else if op =? "<" then Some (ast.Lt, ts')
      else if op =? ">=" then Some (ast.GtE, ts')
      else if op =? ">" then Some (ast.Gt, ts')
      else None
  | NAME a :: NAME b :: ts' =>
      if (a =? "not") && (b =? "in") then Some (ast.NotIn, ts')
      else if (a =? "is") && (b =? "not") then Some (ast.IsNot, ts')
      else if a =? "in" then Some (ast.In, NAME b :: ts')
      else if a =? "is" then Some (ast.Is, NAME b :: ts')
      else None
  | NAME a :: ts' =>
      if a =? "in" then Some (ast.In, ts')
      else if a =? "is" then Some (ast.Is, ts')
      else None
  | _ => None
  end.

(** Adjacent string literals are one string. *)
Fixpoint strings (acc : string) (ts : list token) : string * list token :=
  match ts with
  | STRING s :: ts' => strings (acc ++ s) ts'
  | _ => (acc, ts)
  end.

(** Where a list of expressions may end after a comma. *)
Definition at_end (ts : list token) : bool :=
  match ts with
  | [] | NEWLINE :: _ => true
  | OP op :: _ => (op =? ")") || (op =? "]")
  | _ => false
  end.

Definition is_op (op : string) (ts : list token) : option (list token) :=
  match ts with
  | OP o :: ts' => if o =? op then Some ts' else None
  | _ => None
  end.

Definition is_name (id : string) (ts : list token) : option (list token) :=
  match ts with
  | NAME n :: ts' => if n =? id then Some ts' else None
  | _ => None
  end.

Fixpoint expression (fuel : nat) (ts : list token) : presult ast.expr :=
  match fuel with
  | O => None
  | S fuel' =>
      match conjunction fuel' ts with
      | Some (e, ts1) =>
          match is_name "or" ts1 with
          | Some _ =>
              match or_tail fuel' ts1 with
              | Some (es, ts2) => Some (ast.BoolOp ast.Or (e :: es), ts2)
              | None => None
              end
          | None => Some (e, ts1)
          end
      | None => None
      end
  end

with or_tail (fuel : nat) (ts : list token) : presult (list ast.expr) :=
  match fuel with
  | O => None
  | S fuel' =>
      match is_name "or" ts with
      | Some ts1 =>
          match conjunction fuel' ts1 with
          | Some (e, ts2) =>
              match or_tail fuel' ts2 with
              | Some (es, ts3) => Some (e :: es, ts3)
              | None => None
              end
          | None => None
          end
      | None => Some ([], ts)
      end
  end

with conjunction (fuel : nat) (ts : list token) : presult ast.expr :=
  match fuel with
  | O => None
  | S fuel' =>
      match inversion fuel' ts with
      | Some (e, ts1) =>
          match is_name "and" ts1 with
          | Some _ =>
              match and_tail fuel' ts1 with
              | Some (es, ts2) => Some (ast.BoolOp ast.And (e :: es), ts2)
              | None => None
              end
          | None => Some (e, ts1)
          end
      | None => None
      end
  end

with and_tail (fuel : nat) (ts : list token) : presult (list ast.expr) :=
  match fuel with
  | O => None
  | S fuel' =>
      match is_name "and" ts with
      | Some ts1 =>
          match inversion fuel' ts1 with
          | Some (e, ts2) =>
              match and_tail fuel' ts2 with
              | Some (es, ts3) => Some (e :: es, ts3)
              | None => None
              end
          | None => None
          end
      | None => Some ([], ts)
      end
  end

with inversion (fuel : nat) (ts : list token) : presult ast.expr :=
  match fuel with
  | O => None
  | S fuel' =>
      match is_name "not" ts with
      | Some ts1 =>
          match inversion fuel' ts1 with
          | Some (e, ts2) => Some (ast.UnaryOp ast.Not e, ts2)
          | None => None
          end
      | None =>
          match binary fuel' 0 ts with
          | Some (e, ts1) =>
              match compare_op ts1 with
              | Some _ =>
                  match compare_tail fuel' ts1 with
                  | Some ((ops, es), ts2) => Some (ast.Compare e ops es, ts2)
                  | None => None
                  end
              | None => Some (e, ts1)
              end
          | None => None
          end
      end
  end

with compare_tail (fuel : nat) (ts : list token)
    : presult (list ast.cmpop * list ast.expr) :=
  match fuel with
  | O => None
  | S fuel' =>
      match compare_op ts with
      | Some (op, ts1) =>
          match binary fuel' 0 ts1 with
          | Some (e, ts2) =>
              match compare_tail fuel' ts2 with
              | Some ((ops, es), ts3) => Some ((op :: ops, e :: es), ts3)
              | None => None
              end
          | None => None
          end
      | None => Some (([], []), ts)
      end
  end

with binary (fuel : nat) (lvl : nat) (ts : list token) : presult ast.expr :=
  match fuel with
  | O => None
  | S fuel' =>
      match (if Nat.ltb lvl 6 then binary fuel' (S lvl) ts else factor fuel' ts) with
      | Some (e, ts1) => if Nat.ltb lvl 6 then binary_tail fuel' lvl e ts1 else Some (e, ts1)
      | None => None
      end
  end

with binary_tail (fuel : nat) (lvl : nat) (lhs : ast.expr) (ts : list token)
    : presult ast.expr :=
  match fuel with
  | O => None
  | S fuel' =>
      match ts with
      | OP o :: ts1 =>
          match binary_op lvl o with
          | Some op =>
              match binary fuel' (S lvl) ts1 with
              | Some (rhs, ts2) => binary_tail fuel' lvl (ast.BinOp lhs op rhs) ts2
              | None => None
              end
          | None => Some (lhs, ts)
          end
      | _ => Some (lhs, ts)
      end
  end

with factor (fuel : nat) (ts : list token) : presult ast.expr :=
  match fuel with
  | O => None
  | S fuel' =>
      let power :=
        match atom fuel' ts with
        | Some (a, ts1) =>
            match trailers fuel' a ts1 with
            | Some (p, ts2) =>
                match is_op "**" ts2 with
                | Some ts3 =>
                    match factor fuel' ts3 with
                    | Some (f, ts4) => Some (ast.BinOp p ast.Pow f, ts4)
                    | None => None
                    end
                | None => Some (p, ts2)
                end
            | None => None
            end
        | None => None
        end in
      match ts with
      | OP o :: ts1 =>
          match unary_op o with
          | Some op =>
              match factor fuel' ts1 with
              | Some (e, ts2) => Some (ast.UnaryOp op e, ts2)
              | None => None
              end
          | None => power
          end
      | _ => power
      end
  end

with trailers (fuel : nat) (e : ast.expr) (ts : list token) : presult ast.expr :=
  match fuel with
  | O => None
  | S fuel' =>
      match ts with
      | OP o :: ts1 =>
          if o =? "." then
            match ts1 with
            | NAME n :: ts2 =>
                if is_keyword n then None
                else trailers fuel' (ast.Attribute e n) ts2
            | _ => None
            end
          else if o =? "(" then
            match is_op ")" ts1 with
            | Some ts2 => trailers fuel' (ast.Call e []) ts2
            | None =>
                match elements fuel' ts1 with
                | Some ((es, _), ts2) =>
                    match is_op ")" ts2 with
                    | Some ts3 => trailers fuel' (ast.Call e es) ts3
                    | None => None
                    end
                | None => None
                end
            end
          else if o =? "[" then
            match elements fuel' ts1 with
            | Some ((es, comma), ts2) =>
                match is_op "]" ts2, es, comma with
                | Some ts3, [i], false => trailers fuel' (ast.Subscript e i) ts3
                | Some ts3, _, _ => trailers fuel' (ast.Subscript e (ast.Tuple es)) ts3
                | None, _, _ => None
                end
            | None => None
            end
          else Some (e, ts)
      | _ => Some (e, ts)
      end
  end

with atom (fuel : nat) (ts : list token) : presult ast.expr :=
  match fuel with
  | O => None
  | S fuel' =>
      match ts with
      | NAME n :: ts1 =>
          if n =? "True" then Some (ast.Constant (ast.CBool true), ts1)
          else if n =? "False" then Some (ast.Constant (ast.CBool false), ts1)
          else if n =? "None" then Some (ast.Constant ast.CNone, ts1)
          else if is_keyword n then None
          else Some (ast.Name n, ts1)
      | NUMBER c :: ts1 => Some (ast.Constant c, ts1)
      | STRING _ :: _ =>
          let '(s, ts1) := strings EmptyString ts in
          Some (ast.Constant (ast.CStr s), ts1)
      | OP o :: ts1 =>
          if o =? "..." then Some (ast.Constant ast.CEllipsis, ts1)
          else if o =? "(" then
            match is_op ")" ts1 with
            | Some ts2 => Some (ast.Tuple [], ts2)
            | None =>
                match elements fuel' ts1 with
                | Some ((es, comma), ts2) =>
                    match is_op ")" ts2, es, comma with
                    | Some ts3, [e], false => Some (e, ts3)
                    | Some ts3, _, _ => Some (ast.Tuple es, ts3)
                    | None, _, _ => None
                    end
                | None => None
                end
            end
          else if o =? "[" then
            match is_op "]" ts1 with
            | Some ts2 => Some (ast.List [], ts2)
            | None =>
                match elements fuel' ts1 with
                | Some ((es, _), ts2) =>
                    match is_op "]" ts2 with
                    | Some ts3 => Some (ast.List es, ts3)
                    | None => None
                    end
                | None => None
                end
            end
          else None
      | _ => None
      end
  end

with elements (fuel : nat) (ts : list token) : presult (list ast.expr * bool) :=
  match fuel with
  | O => None
  | S fuel' =>
      match expression fuel' ts with
      | Some (e, ts1) =>
          match is_op "," ts1 with
          | Some ts2 =>
              if at_end ts2 then Some (([e], true), ts2)
              else
                match elements fuel' ts2 with
                | Some ((es, _), ts3) => Some ((e :: es, true), ts3)
                | None => None
                end
          | None => Some (([e], false), ts1)
          end
      | None => None
      end
  end.

Fixpoint only_newlines (ts : list token) : bool :=
  match ts with
  | [] => true
  | NEWLINE :: ts' => only_newlines ts'
  | _ => false
  end.

(** The rule [eval: expressions NEWLINE* ENDMARKER]. *)
Definition eval (ts : list token) : option ast.expr :=
  match elements (20 * (List.length ts + 1))%nat ts with
  | Some ((es, comma), rest) =>
      if only_newlines rest then
        match es, comma with
        | [e], false => Some e
        | _, _ => Some (ast.Tuple es)
        end
      else None
  | None => None
  end.

End Parse.

Definition nul_in_source : string := "source code string cannot contain null bytes".

(** [ast.parse(expr, mode="eval").body]. *)
Definition ast_parse (expr : string) : result ast.expr :=
  if Lex.mem_char "000"%char expr then Raises (ValueError nul_in_source)
  else
    match Lex.tokens expr with
    | Some ts =>
        match Parse.eval ts with
        | Some e => Returns e
        | None => Raises SyntaxError
        end
    | None => Raises SyntaxError
    end.

(** ** [str.strip] and [safe_eval] *)

(** [str.isspace] on the code points below 256. *)
Definition isspace (c : ascii) : bool :=
  Lex.in_range 9 13 c || Lex.in_range 28 32 c
  || Lex.is_char 133 c || Lex.is_char 160 c.

Fixpoint lstrip (s : string) : string :=
  match s with
  | String c s' => if isspace c then lstrip s' else s
  | EmptyString => EmptyString
  end.

Fixpoint rstrip (s : string) : string :=
  match s with
  | String c s' =>
      match rstrip s' with
      | EmptyString => if isspace c then EmptyString else String c EmptyString
      | t => String c t
      end
  | EmptyString => EmptyString
  end.

Definition strip (s : string) : string := rstrip (lstrip s).

Section SafeEval.

Variable py : cpython.

Definition safe_eval (expr : string) : M value :=
  let expr := strip expr in
  if (100 <? String.length expr)%nat then raise (ValueError too_long)
  else
    tree <- lift (ast_parse expr) ;;
    _eval_node py tree.

End SafeEval.

(** ** [str] of a value *)

Module Repr.

Definition string_of_Z (n : Z) : string := NilZero.string_of_int (Z.to_int n).

Fixpoint zeros (n : nat) : string :=
  match n with
  | O => EmptyString
  | S n' => String "0" (zeros n')
  end.

(** [m * 2^e] against [d * 10^k]. *)
Definition compare_scaled (m e d k : Z) : comparison :=
  Z.compare (m * 2 ^ Z.max e 0 * 10 ^ Z.max (- k) 0)
            (d * 10 ^ Z.max k 0 * 2 ^ Z.max (- e) 0).

(** The least [k] from [k0] on with [m * 2^e < 10^k]. *)
Fixpoint decimal_point (fuel : nat) (m e k : Z) : Z :=
  match fuel with
  | O => k
  | S fuel' =>
      match compare_scaled m e 1 k with
      | Lt => k
      | _ => decimal_point fuel' m e (k + 1)
      end
  end.

(** The shortest decimal that reads back as [x = m * 2^e], as a number [c]
    of [n] digits or more and an exponent: [c * 10^(k - n)], the nearer to
    [x] of the two neighbours of [x] with [n] digits that read back as [x];
    [n] goes up to 17, where one of them does. *)
Fixpoint shortest (fuel : nat) (n : Z) (x : float) (m e k : Z) : Z * Z :=
  match fuel with
  | O => (0, 0)
  | S fuel' =>
      let num := m * 2 ^ Z.max e 0 * 10 ^ Z.max (n - k) 0 in
      let den := 2 ^ Z.max (- e) 0 * 10 ^ Z.max (k - n) 0 in
      let lo := num / den in
      let hi := lo + 1 in
      let lo_ok := Float.eqb (Float.of_decimal lo (k - n)) x in
      let hi_ok := Float.eqb (Float.of_decimal hi (k - n)) x in
      if lo_ok && hi_ok then
        match Z.compare (2 * num) ((2 * lo + 1) * den) with
        | Lt => (lo, k - n)
        | Gt => (hi, k - n)
        | Eq => (if Z.even lo then lo else hi, k - n)
        end
      else if lo_ok then (lo, k - n)
      else if hi_ok then (hi, k - n)
      else shortest fuel' (n + 1) x m e k
  end.

Fixpoint strip_zeros (s : string) : string :=
  match s with
  | String c s' =>
      match strip_zeros s' with
      | EmptyString => if Lex.is_char 48 c then EmptyString else String c EmptyString
      | t => String c t
      end
  | EmptyString => EmptyString
  end.

(** The digits of a finite nonzero float and the place of its point:
    [0.digits * 10^decpt]. *)
Definition digits_of (m : positive) (e : Z) : string * Z :=
  let bits := Zpos (digits2_pos m) + e in
  let k := decimal_point 8 (Zpos m) e ((bits - 1) * 30103 / 100000 - 1) in
  let '(c, p) := shortest 17 1 (S754_finite false m e) (Zpos m) e k in
  let ds := string_of_Z c in
  (strip_zeros ds, p + Z.of_nat (String.length ds)).

(** [PyOS_double_to_string(x, 'r', 0, flags, NULL)]: [add_dot_0] is
    [Py_DTSF_ADD_DOT_0], [sign] is [Py_DTSF_SIGN]. *)
Definition double_to_string (add_dot_0 sign : bool) (x : float) : string :=
  let plus := if sign then "+" else "" in
  let signed (s : bool) (body : string) := (if s then "-" else plus) ++ body in
  match x with
  | S754_nan => plus ++ "nan"
  | S754_infinity s => signed s "inf"
  | S754_zero s => signed s (if add_dot_0 then "0.0" else "0")
  | S754_finite s m e =>
      let '(ds, decpt) := digits_of m e in
      let n := Z.of_nat (String.length ds) in
      signed s
        (if (decpt <=? -4) || (16 <? decpt) then
           let ex := decpt - 1 in
           let mant :=
             match ds with
             | String d EmptyString => ds
             | String d rest => String d ("." ++ rest)
             | EmptyString => ds
             end in
           let ed := string_of_Z (Z.abs ex) in
           mant ++ "e" ++ (if ex <? 0 then "-" else "+")
                ++ (if Z.abs ex <? 10 then "0" ++ ed else ed)
         else if decpt <=? 0 then "0." ++ zeros (Z.to_nat (- decpt)) ++ ds
         else if decpt <? n then
           substring 0 (Z.to_nat decpt) ds ++ "."
             ++ substring (Z.to_nat decpt) (Z.to_nat (n - decpt)) ds
         else ds ++ zeros (Z.to_nat (decpt - n)) ++ (if add_dot_0 then ".0" else ""))
  end.

Definition float_repr (x : float) : string := double_to_string true false x.

(** [complex_repr]. *)
Definition complex_repr (c : complex) : string :=
  let '(re, im) := c in
  match re with
  | S754_zero false => double_to_string false false im ++ "j"
  | _ => "(" ++ double_to_string false false re
             ++ double_to_string false true im ++ "j)"
  end.

Definition digit_limit : string :=
  "Exceeds the limit for integer string conversion".

(** [long_to_decimal_string]: an int of more digits than the limit, when
    there is one, is not converted. *)
Definition long_to_decimal_string (max_digits : Z) (n : Z) : result string :=
  let digits := string_of_Z (Z.abs n) in
  if (0 <? max_digits) && (max_digits <? Z.of_nat (String.length digits))
  then Raises (ValueError digit_limit)
  else Returns (string_of_Z n).

End Repr.

(** [str(result)]. *)
Definition py_str (py : cpython) (v : value) : result string :=
  match v with
  | VInt n => Repr.long_to_decimal_string (int_max_str_digits py) n
  | VBool b => Returns (if b then "True" else "False")
  | VFloat x => Returns (Repr.float_repr x)
  | VComplex c => Returns (Repr.complex_repr c)
  end.

(** ** The model [Calculation] and the request handlers

    The table is the list of its rows, oldest first.  A commit gives the new
    row the next primary key and the time of the request as [created_at];
    the storage is taken to be reliable, as the specification does. *)

Module Calculation.

Record t : Type := {
  id : Z;
  expression : string;
  result : string;
  created_at : Z
}.

End Calculation.

Definition database : Type := list Calculation.t.

Definition next_id (db : database) : Z :=
  1 + fold_right (fun c m => Z.max (Calculation.id c) m) 0 db.

(** [db.session.add(calc); db.session.commit()]. *)
Definition add_commit (db : database) (expression result : string) (now : Z)
    : Calculation.t * database :=
  let calc := {| Calculation.id := next_id db;
                 Calculation.expression := expression;
                 Calculation.result := result;
                 Calculation.created_at := now |} in
  (calc, (db ++ [calc])%list).

(** What a handler flashes: ["Enter an expression."] or [f"Error: {e}"]. *)
Inductive flash_message : Type :=
| EnterAnExpression
| Error (e : exn).

(** The body of a JSON answer: an ["error"] (the missing parameter, or
    [str(e)]) or [calc.as_dict()]. *)
Inductive json : Type :=
| ExprRequired
| ErrorOf (e : exn)
| AsDict (calc : Calculation.t).

Inductive response : Type :=
| redirect (endpoint : string) (flashed : option flash_message)
| jsonify (body : json) (status : Z).

Section Handlers.

Variable py : cpython.

(** [POST /calculate], on the form field [expression] (if any), at the time
    [now], with the table [db]. *)
Definition calculate (field : option string) (now : Z) (db : database) (L : libm)
    : response * database :=
  let expression := strip (match field with Some e => e | None => "" end) in
  if (expression =? "")%string then (redirect "home" (Some EnterAnExpression), db)
  else
    match safe_eval py expression L with
    | Returns result =>
        match py_str py result with
        | Returns s =>
            let '(_, db') := add_commit db expression s now in
            (redirect "history" None, db')
        | Raises e => (redirect "home" (Some (Error e)), db)
        end
    | Raises e => (redirect "home" (Some (Error e)), db)
    end.

(** [GET /api/calc], on the query parameter [expr] (if any). *)
Definition api_calc (param : option string) (now : Z) (db : database) (L : libm)
    : response * database :=
  let expression := strip (match param with Some e => e | None => "" end) in
  if (expression =? "")%string then (jsonify ExprRequired 400, db)
  else
    match safe_eval py expression L with
    | Returns result =>
        match py_str py result with
        | Returns s =>
            let '(calc, db') := add_commit db expression s now in
            (jsonify (AsDict calc) 200, db')
        | Raises e => (jsonify (ErrorOf e) 400, db)
        end
    | Raises e => (jsonify (ErrorOf e) 400, db)
    end.

End Handlers.

(** [order_by(Calculation.id.desc())]: the rows by decreasing key. *)
Fixpoint insert_desc (c : Calculation.t) (rows : list Calculation.t)
    : list Calculation.t :=
  match rows with
  | [] => [c]
  | r :: rows' =>
      if Calculation.id r <? Calculation.id c then c :: rows
      else r :: insert_desc c rows'
  end.

Definition order_by_id_desc (rows : list Calculation.t) : list Calculation.t :=
  fold_right insert_desc [] rows.

(** [GET /history]: the rows handed to the template,
    [Calculation.query.order_by(Calculation.id.desc()).limit(50).all()]. *)
Definition history (db : database) : list Calculation.t :=
  firstn 50 (order_by_id_desc db).

(** The requests of the application that reach the table, and the table
    after a request and after a sequence of requests, each with its time. *)
Inductive request : Type :=
| POST_calculate (field : option string)
| GET_api_calc (param : option string)
| GET_history.

Definition handle (py : cpython) (L : libm) (req : request) (now : Z)
    (db : database) : database :=
  match req with
  | POST_calculate field => snd (calculate py field now db L)
  | GET_api_calc param => snd (api_calc py param now db L)
  | GET_history => db
  end.

Fixpoint serve (py : cpython) (L : libm) (reqs : list (request * Z))
    (db : database) : database :=
  match reqs with
  | [] => db
  | (req, now) :: rest => serve py L rest (handle py L req now db)
  end.

(** A C library whose every answer is a domain error: an instance to run the
    evaluator on expressions that never reach it. *)
Definition libm_edom : libm :=
  {| libm_pow := fun _ _ => (Float.nan, EDOM);
     c_pow_polar := fun _ _ => ((Float.nan, Float.nan), EDOM) |}.

(** ** Vocabulary of the properties *)

(** The exceptions of the numeric tower. *)
Definition arith_error (x : exn) : Prop :=
  x = ZeroDivisionError \/ x = OverflowError \/ x = TypeError
  \/ x = ValueError domain_error.

(** The expressions of the arithmetic subset: int and float literals
    under the two unary and the seven binary operators of the whitelist. *)
Fixpoint arithmetic (e : ast.expr) : bool :=
  match e with
  | ast.BinOp l op r =>
      match _ops op with
      | Some _ => arithmetic l && arithmetic r
      | None => false
      end
  | ast.UnaryOp op operand =>
      match _unary_ops op with
      | Some _ => arithmetic operand
      | None => false
      end
  | ast.Constant (ast.CInt _) | ast.Constant (ast.CFloat _) => true
  | _ => false
  end.

Definition is_bool (v : value) : bool :=
  match v with VBool _ => true | _ => false end.

(** What a JSON answer shows of an evaluation: the error, or the text and
    the result of the record, without its key and its time; nothing when
    no expression was given. *)
Definition outcome (r : response) : option (result (string * string)) :=
  match r with
  | jsonify (AsDict c) _ =>
      Some (Returns (Calculation.expression c, Calculation.result c))
  | jsonify (ErrorOf e) _ => Some (Raises e)
  | _ => None
  end.

(** The trees the evaluator has a case for, at every node: a binary
    operation of [_ops], a unary operation of [_unary_ops], a constant that
    is an int, a float or a bool, or any number where [ast.Num] exists. *)
Definition whitelisted_constant (py : cpython) (c : ast.constant) : bool :=
  match int_or_float c with
  | Some _ => true
  | None =>
      match (if ast_has_Num py then Num_n c else None) with
      | Some _ => true
      | None => false
      end
  end.

Fixpoint whitelisted (py : cpython) (e : ast.expr) : bool :=
  match e with
  | ast.BinOp l op r =>
      match _ops op with
      | Some _ => whitelisted py l && whitelisted py r
      | None => false
      end
  | ast.UnaryOp op operand =>
      match _unary_ops op with
      | Some _ => whitelisted py operand
      | None => false
      end
  | ast.Constant c => whitelisted_constant py c
  | _ => false
  end.

(** The expressions on ints alone: int literals under [+], [-], [*], [//],
    [%] and the two unary operators. *)
Fixpoint int_expr (e : ast.expr) : bool :=
  match e with
  | ast.BinOp l op r =>
      match op with
      | ast.Add | ast.Sub | ast.Mult | ast.FloorDiv | ast.Mod =>
          int_expr l && int_expr r
      | _ => false
      end
  | ast.UnaryOp op operand =>
      match _unary_ops op with
      | Some _ => int_expr operand
      | None => false
      end
  | ast.Constant (ast.CInt _) => true
  | _ => false
  end.

(** The keys of the rows grow along the table, from above [m]. *)
Fixpoint ids_above (m : Z) (db : database) : bool :=
  match db with
  | [] => true
  | c :: rest => (m <? Calculation.id c) && ids_above (Calculation.id c) rest
  end.

(** The keys decrease along the rows. *)
Fixpoint descending (rows : list Calculation.t) : bool :=
  match rows with
  | a :: rest =>
      match rest with
      | b :: _ => (Calculation.id b <=? Calculation.id a) && descending rest
      | [] => true
      end
  | [] => true
  end.

(** A row that holds a trimmed, non-empty expression of at most 100
    characters and the text of the value it evaluates to. *)
Definition row_ok (py : cpython) (L : libm) (c : Calculation.t) : Prop :=
  strip (Calculation.expression c) = Calculation.expression c
  /\ Calculation.expression c <> EmptyString
  /\ (String.length (Calculation.expression c) <= 100)%nat
  /\ exists v, safe_eval py (Calculation.expression c) L = Returns v
               /\ py_str py v = Returns (Calculation.result c).

(** The three operators that divide. *)
Definition division (op : ast.operator) : bool :=
  match op with
  | ast.Div | ast.FloorDiv | ast.Mod => true
  | _ => false
  end.

(** A real number equal to zero: [0], [False], [0.0] or [-0.0]. *)
Definition real_zero (v : value) : bool :=
  match v with
  | VInt n => n =? 0
  | VBool b => negb b
  | VFloat x => Float.eqb x Float.zero
  | VComplex _ => false
  end.

(** * Properties *)

(** ** The monad *)

Lemma bind_returns {A B : Type} (m : M A) (k : A -> M B) (L : libm) (a : A) :
  m L = Returns a -> bind m k L = k a L.
Proof. intros H. unfold bind. rewrite H. reflexivity. Qed.

Lemma bind_raises {A B : Type} (m : M A) (k : A -> M B) (L : libm) (e : exn) :
  m L = Raises e -> bind m k L = Raises e.
Proof. intros H. unfold bind. rewrite H. reflexivity. Qed.

(** ** Trimming *)

Lemma lstrip_all_space (s : string) :
  Lex.all_chars isspace s = true -> lstrip s = EmptyString.
Proof.
  induction s as [|c s IH]; simpl; intros H.
  - reflexivity.
  - apply andb_prop in H. destruct H as [Hc Hs].
    rewrite Hc. exact (IH Hs).
Qed.

Lemma strip_all_space (s : string) :
  Lex.all_chars isspace s = true -> strip s = EmptyString.
Proof.
  intros H. unfold strip. rewrite (lstrip_all_space s H). reflexivity.
Qed.

(** ** Worked examples *)

(** C3: the evaluator computes the six example values of the
    specification, with the usual precedence of the operators:
    2 + 3 = 5, 2 + 3 * 4 = 14, (2 + 3) * 4 = 20, 2 ** 10 = 1024,
    7 // 2 = 3 and 7 % 2 = 1, on every interpreter and C library. *)
Theorem safe_eval_examples (py : cpython) :
  safe_eval py "2 + 3" = ret (VInt 5)
  /\ safe_eval py "2 + 3 * 4" = ret (VInt 14)
  /\ safe_eval py "(2 + 3) * 4" = ret (VInt 20)
  /\ safe_eval py "2 ** 10" = ret (VInt 1024)
  /\ safe_eval py "7 // 2" = ret (VInt 3)
  /\ safe_eval py "7 % 2" = ret (VInt 1).
Proof. repeat split; vm_compute; reflexivity. Qed.

(** The two hostile examples of the specification are rejected as
    unsupported syntax: no name is looked up and nothing is called. *)
Lemma safe_eval_rejects_names_and_calls (py : cpython) :
  safe_eval py "__import__('os').system('ls')" = raise (ValueError unsupported)
  /\ safe_eval py "a + 1" = raise (ValueError unsupported).
Proof. split; vm_compute; reflexivity. Qed.

(** Every node that is neither a binary operation, a unary operation nor a
    constant is rejected, whatever its children are. *)
Lemma eval_node_rejects_other_nodes (py : cpython) (node : ast.expr) :
  match node with
  | ast.BinOp _ _ _ | ast.UnaryOp _ _ | ast.Constant _ => True
  | _ => _eval_node py node = raise (ValueError unsupported)
  end.
Proof. destruct node; simpl; trivial. Qed.

(** C1, at the input where the source departs from it: the boolean
    literal [True] is not rejected.  The parser gives the constant [True],
    [isinstance(True, (int, float))] holds since [bool] is a subclass of
    [int], and the evaluator returns [True]. *)
Theorem safe_eval_accepts_True (py : cpython) :
  safe_eval py "True" = ret (VBool true).
Proof. vm_compute. reflexivity. Qed.

(** Where [ast.Num] exists, an imaginary literal is accepted as well. *)
Lemma safe_eval_accepts_imaginary :
  safe_eval cpython311 "2j" = ret (VComplex (Float.zero, Float.of_Z 2)).
Proof. vm_compute. reflexivity. Qed.

(** C10: the empty text and every text of white space only fail with a
    syntax error: trimmed, the text is empty, and the empty text is not an
    expression. *)
Theorem safe_eval_whitespace_only (py : cpython) (s : string) :
  Lex.all_chars isspace s = true ->
  safe_eval py s = raise SyntaxError.
Proof.
  intros H. unfold safe_eval. rewrite (strip_all_space s H). reflexivity.
Qed.

Lemma safe_eval_whitespace_only_witness :
  Lex.all_chars isspace (String " " (String "009" (String "010" EmptyString))) = true
  /\ safe_eval cpython311 (String " " (String "009" (String "010" EmptyString)))
     = raise SyntaxError.
Proof.
  split; [reflexivity | apply safe_eval_whitespace_only; reflexivity].
Defined.

(** ** What the operators may raise *)

#[local] Hint Unfold arith_error : core.

Lemma rbind_raises {A B : Type} (r : result A) (k : A -> result B) (x : exn) :
  rbind r k = Raises x ->
  r = Raises x \/ exists a, r = Returns a /\ k a = Raises x.
Proof.
  destruct r as [a|e]; simpl; intros H.
  - right. exists a. split; [reflexivity | exact H].
  - left. inversion H. reflexivity.
Qed.

Lemma long_as_double_raises (n : Z) (x : exn) :
  Num.long_as_double n = Raises x -> x = OverflowError.
Proof.
  unfold Num.long_as_double.
  destruct (Float.is_inf (Float.of_Z n)); congruence.
Qed.

Lemma to_double_raises (v : value) (x : exn) :
  Num.to_double v = Raises x -> arith_error x.
Proof.
  destruct v; simpl; intros H;
    try (apply long_as_double_raises in H); try congruence; subst; auto.
  inversion H. auto.
Qed.

Lemma to_complex_raises (v : value) (x : exn) :
  Num.to_complex v = Raises x -> arith_error x.
Proof.
  destruct v; unfold Num.to_complex; intros H;
    try discriminate;
    apply rbind_raises in H; destruct H as [H | (a & _ & H)];
    try discriminate; eapply to_double_raises; exact H.
Qed.

Ltac conversion_raises H :=
  first [ eapply to_complex_raises; exact H | eapply to_double_raises; exact H ].

Lemma numeric_raises
    (on_int : Z -> Z -> result value)
    (on_float : float -> float -> result value)
    (on_complex : complex -> complex -> result value) :
  (forall x y e, on_int x y = Raises e -> arith_error e) ->
  (forall x y e, on_float x y = Raises e -> arith_error e) ->
  (forall x y e, on_complex x y = Raises e -> arith_error e) ->
  forall a b e,
    operator.numeric on_int on_float on_complex a b = Raises e -> arith_error e.
Proof.
  intros Hi Hf Hc a b e. unfold operator.numeric.
  destruct (Num.as_int a) as [x|]; [destruct (Num.as_int b) as [y|]|];
    try (apply Hi);
    destruct (Num.is_complex a || Num.is_complex b); intros H;
    apply rbind_raises in H; destruct H as [H | (u & _ & H)];
    try conversion_raises H;
    apply rbind_raises in H; destruct H as [H | (w & _ & H)];
    try conversion_raises H;
    first [eapply Hc; exact H | eapply Hf; exact H].
Qed.

Lemma real_only_raises
    (on_int : Z -> Z -> result value)
    (on_float : float -> float -> result value) :
  (forall x y e, on_int x y = Raises e -> arith_error e) ->
  (forall x y e, on_float x y = Raises e -> arith_error e) ->
  forall a b e,
    operator.real_only on_int on_float a b = Raises e -> arith_error e.
Proof.
  intros Hi Hf a b e. unfold operator.real_only.
  destruct (Num.as_int a) as [x|]; [destruct (Num.as_int b) as [y|]|];
    try (apply Hi);
    destruct (Num.is_complex a || Num.is_complex b); intros H;
    try (inversion H; unfold arith_error; auto; fail);
    apply rbind_raises in H; destruct H as [H | (u & _ & H)];
    try conversion_raises H;
    apply rbind_raises in H; destruct H as [H | (w & _ & H)];
    try conversion_raises H;
    eapply Hf; exact H.
Qed.

Lemma long_true_divide_raises (a b : Z) (e : exn) :
  Num.long_true_divide a b = Raises e -> arith_error e.
Proof.
  unfold Num.long_true_divide.
  destruct (b =? 0); [intros H; inversion H; auto|].
  destruct a; try discriminate;
    match goal with |- context [Float.is_inf ?q] => destruct (Float.is_inf q) end;
    intros H; inversion H; auto.
Qed.

Lemma long_floor_div_raises (a b : Z) (e : exn) :
  Num.long_floor_div a b = Raises e -> arith_error e.
Proof.
  unfold Num.long_floor_div. destruct (b =? 0); intros H; inversion H; auto.
Qed.

Lemma long_mod_raises (a b : Z) (e : exn) :
  Num.long_mod a b = Raises e -> arith_error e.
Proof.
  unfold Num.long_mod. destruct (b =? 0); intros H; inversion H; auto.
Qed.

Lemma float_div_raises (x y : float) (e : exn) :
  Num.float_div x y = Raises e -> arith_error e.
Proof.
  unfold Num.float_div. destruct (Float.eqb y Float.zero); intros H; inversion H; auto.
Qed.

Lemma float_rem_raises (x y : float) (e : exn) :
  Num.float_rem x y = Raises e -> arith_error e.
Proof.
  unfold Num.float_rem. destruct (Float.eqb y Float.zero); intros H; inversion H; auto.
Qed.

Lemma float_floor_div_raises (x y : float) (e : exn) :
  Num.float_floor_div x y = Raises e -> arith_error e.
Proof.
  unfold Num.float_floor_div.
  destruct (Float.eqb y Float.zero); intros H; inversion H; auto.
Qed.

Lemma complex_div_raises (a b : complex) (e : exn) :
  Num.complex_div a b = Raises e -> arith_error e.
Proof.
  unfold Num.complex_div. destruct (Num.c_quot a b) as [q [| |]];
    intros H; inversion H; auto.
Qed.

(** Complex exponentiation raises [ZeroDivisionError] or [OverflowError]
    only. *)
Lemma complex_pow_raises (a b : complex) (L : libm) (e : exn) :
  Num.complex_pow a b L = Raises e -> e = ZeroDivisionError \/ e = OverflowError.
Proof.
  unfold Num.complex_pow.
  match goal with |- context [if ?c then _ else _] => destruct c end;
    match goal with |- context [let '(_, _) := ?cp in _] => destruct cp as [q er] end;
    match goal with |- context [Num.adjust_erange ?i ?er] =>
      destruct (Num.adjust_erange i er) end;
    intros H; inversion H; auto.
Qed.

Lemma float_pow_raises (iv iw : float) (L : libm) (e : exn) :
  Num.float_pow iv iw L = Raises e -> arith_error e.
Proof.
  unfold Num.float_pow.
  repeat match goal with
         | |- context [if ?c then _ else _] => destruct c
         end;
    try discriminate;
    try (intros H; inversion H; auto; fail);
    try (intros H; apply complex_pow_raises in H; destruct H; subst; auto; fail);
    destruct (libm_pow L (Float.abs iv) iw) as [ix er];
    match goal with |- context [Num.adjust_erange ?i ?er] =>
      destruct (Num.adjust_erange i er) end;
    intros H; inversion H; auto.
Qed.

Lemma pow_raises (a b : value) (L : libm) (e : exn) :
  operator.pow a b L = Raises e -> arith_error e.
Proof.
  unfold operator.pow.
  destruct (Num.as_int a) as [x|]; [destruct (Num.as_int b) as [y|]|];
    repeat match goal with
           | |- context [if ?c then _ else _] => destruct c
           end;
    try discriminate;
    unfold bind, lift; intros H;
    repeat match type of H with
           | match ?r with _ => _ end = _ =>
               let E := fresh "E" in
               destruct r eqn:E; [| inversion H; subst; clear H;
                                    first [ apply long_as_double_raises in E; subst; auto
                                          | eapply to_double_raises; exact E
                                          | eapply to_complex_raises; exact E ]]
           end;
    first [ eapply float_pow_raises; exact H
          | apply complex_pow_raises in H; destruct H; subst; auto ].
Qed.

Lemma ops_raise (op : ast.operator) (f : value -> value -> M value)
    (a b : value) (L : libm) (e : exn) :
  _ops op = Some f -> f a b L = Raises e -> arith_error e.
Proof.
  destruct op; simpl; intros Hf; inversion Hf; subst; clear Hf; unfold lift.
  - apply numeric_raises; intros; discriminate.
  - apply numeric_raises; intros; discriminate.
  - apply numeric_raises; intros; discriminate.
  - apply numeric_raises;
      [apply long_true_divide_raises | apply float_div_raises | apply complex_div_raises].
  - apply real_only_raises; [apply long_mod_raises | apply float_rem_raises].
  - apply pow_raises.
  - apply real_only_raises; [apply long_floor_div_raises | apply float_floor_div_raises].
Qed.

(** The evaluator raises an error of the numeric tower or the
    [ValueError] of an unsupported node, and nothing else. *)
Lemma eval_node_raises (py : cpython) (node : ast.expr) (L : libm) (e : exn) :
  _eval_node py node L = Raises e ->
  arith_error e \/ e = ValueError unsupported.
Proof.
  revert e. induction node as [l IHl op r IHr | op operand IH | c | | | | | | | |];
    intros e; simpl;
    try (intros H; inversion H; auto; fail).
  - destruct (_ops op) as [f|] eqn:Hop.
    + unfold bind.
      destruct (_eval_node py l L) as [a|ea] eqn:El;
        [| intros H; inversion H; subst; apply IHl; reflexivity].
      destruct (_eval_node py r L) as [b|eb] eqn:Er;
        [| intros H; inversion H; subst; apply IHr; reflexivity].
      intros H. left. eapply ops_raise; eassumption.
    + intros H; inversion H; auto.
  - destruct (_unary_ops op) as [f|].
    + unfold bind.
      destruct (_eval_node py operand L) as [a|ea] eqn:E;
        [discriminate | intros H; inversion H; subst; apply IH; reflexivity].
    + intros H; inversion H; auto.
  - destruct (int_or_float c); [discriminate|].
    destruct (if ast_has_Num py then Num_n c else None);
      [discriminate | intros H; inversion H; auto].
Qed.

Lemma ast_parse_raises (s : string) (e : exn) :
  ast_parse s = Raises e -> e = SyntaxError \/ e = ValueError nul_in_source.
Proof.
  unfold ast_parse.
  destruct (Lex.mem_char _ s); [intros H; inversion H; auto|].
  destruct (Lex.tokens s) as [ts|]; [destruct (Parse.eval ts)|];
    intros H; inversion H; auto.
Qed.

(** ** The limit on the length *)

(** C5: a text is rejected as too long exactly when its trimmed length
    exceeds 100 characters: beyond the limit the answer is "Expression too
    long" whatever the text holds, and at or below it neither the parser
    nor the evaluator ever gives that answer. *)
Theorem safe_eval_too_long_iff (py : cpython) (s : string) (L : libm) :
  safe_eval py s L = Raises (ValueError too_long)
  <-> (100 < String.length (strip s))%nat.
Proof.
  unfold safe_eval.
  destruct (Nat.ltb_spec 100 (String.length (strip s))) as [Hlt | Hge].
  - split; [intros _; exact Hlt | reflexivity].
  - split; [| intros H; exfalso; apply (Nat.lt_irrefl 100);
              eapply Nat.lt_le_trans; eassumption].
    unfold bind, lift.
    destruct (ast_parse (strip s)) as [tree|e] eqn:Hp.
    + intros H. apply eval_node_raises in H.
      destruct H as [[H | [H | [H | H]]] | H]; discriminate H.
    + intros H. inversion H; subst.
      apply ast_parse_raises in Hp. destruct Hp as [Hp | Hp]; discriminate Hp.
Qed.

(** ** Modulo and floor division on ints *)

(** The two recursive cases of the evaluator, as equations. *)
Lemma eval_node_BinOp (py : cpython) (l r : ast.expr) (op : ast.operator)
    (f : value -> value -> M value) :
  _ops op = Some f ->
  _eval_node py (ast.BinOp l op r)
  = (a <- _eval_node py l ;; b <- _eval_node py r ;; f a b)%py.
Proof. intros H. simpl. rewrite H. reflexivity. Qed.

Lemma eval_node_UnaryOp (py : cpython) (operand : ast.expr) (op : ast.unaryop)
    (f : value -> value) :
  _unary_ops op = Some f ->
  _eval_node py (ast.UnaryOp op operand)
  = (a <- _eval_node py operand ;; ret (f a))%py.
Proof. intros H. simpl. rewrite H. reflexivity. Qed.

(** The floor division of [a] by [b] has one quotient and one remainder:
    the pair with [a = q * b + m], [m] zero or of the sign of [b], and
    [|m| < |b|]. *)
Lemma floor_div_mod_unique (a b q m : Z) :
  b <> 0 ->
  a = q * b + m ->
  m = 0 \/ Z.sgn m = Z.sgn b ->
  Z.abs m < Z.abs b ->
  m = a mod b /\ q = a / b.
Proof.
  intros Hb Ha Hs Hlt.
  assert (Hr : 0 <= m < b \/ b < m <= 0).
  { destruct Hs as [-> | Hs]; [lia |].
    destruct m, b; simpl in Hs; try discriminate; lia. }
  destruct (Z.div_mod_unique b q (a / b) m (a mod b)) as [Hq Hm].
  - exact Hr.
  - destruct (Z.lt_trichotomy b 0) as [Hn | [H0 | Hp]]; [| contradiction |].
    + right. apply Z.mod_neg_bound. exact Hn.
    + left. apply Z.mod_pos_bound. exact Hp.
  - rewrite <- (Z.div_mod a b Hb). lia.
  - split; [exact Hm | exact Hq].
Qed.

(** C6: for operands that evaluate to the ints [a] and [b], [b] not zero,
    [a % b] evaluates to the remainder [a mod b] of the floor division and
    [a // b] to its quotient.  That remainder is zero or has the sign of
    [b], is smaller than [b] in absolute value, and satisfies
    [a = (a // b) * b + a % b]; it is the only number with these three
    properties, so they determine what [%] returns. *)
Theorem eval_mod_floor (py : cpython) (l r : ast.expr) (L : libm) (a b : Z) :
  _eval_node py l L = Returns (VInt a) ->
  _eval_node py r L = Returns (VInt b) ->
  b <> 0 ->
  exists m q,
    _eval_node py (ast.BinOp l ast.Mod r) L = Returns (VInt m)
    /\ _eval_node py (ast.BinOp l ast.FloorDiv r) L = Returns (VInt q)
    /\ (m = 0 \/ Z.sgn m = Z.sgn b)
    /\ Z.abs m < Z.abs b
    /\ a = q * b + m
    /\ m = a mod b
    /\ q = a / b
    /\ (forall q' m',
          a = q' * b + m' ->
          m' = 0 \/ Z.sgn m' = Z.sgn b ->
          Z.abs m' < Z.abs b ->
          m' = m /\ q' = q).
Proof.
  intros Hl Hr Hb. exists (a mod b), (a / b).
  assert (Hz : (b =? 0) = false) by (apply Z.eqb_neq; exact Hb).
  split.
  { rewrite (eval_node_BinOp py l r ast.Mod _ eq_refl).
    unfold bind. rewrite Hl, Hr. unfold lift, operator.mod_, operator.real_only.
    cbn [Num.as_int]. unfold Num.long_mod. rewrite Hz. reflexivity. }
  split.
  { rewrite (eval_node_BinOp py l r ast.FloorDiv _ eq_refl).
    unfold bind. rewrite Hl, Hr. unfold lift, operator.floordiv, operator.real_only.
    cbn [Num.as_int]. unfold Num.long_floor_div. rewrite Hz. reflexivity. }
  assert (Hbound : 0 <= a mod b < b \/ b < a mod b <= 0).
  { destruct (Z.lt_trichotomy b 0) as [Hn | [H0 | Hp]]; [| contradiction |].
    - right. apply Z.mod_neg_bound. exact Hn.
    - left. apply Z.mod_pos_bound. exact Hp. }
  split.
  { destruct (Z.eq_dec (a mod b) 0) as [E | E]; [left; exact E | right].
    destruct Hbound as [[Hlo Hhi] | [Hlo Hhi]].
    - rewrite (Z.sgn_pos b) by lia. apply Z.sgn_pos. lia.
    - rewrite (Z.sgn_neg b) by lia. apply Z.sgn_neg. lia. }
  split; [lia |].
  split; [pose proof (Z.div_mod a b Hb); lia |].
  split; [reflexivity |].
  split; [reflexivity |].
  intros q' m' Ha Hs Hlt. exact (floor_div_mod_unique a b q' m' Hb Ha Hs Hlt).
Qed.

Lemma eval_mod_floor_witness :
  _eval_node cpython311 (ast.Constant (ast.CInt (-7))) libm_edom = Returns (VInt (-7))
  /\ _eval_node cpython311 (ast.Constant (ast.CInt 2)) libm_edom = Returns (VInt 2)
  /\ 2 <> 0
  /\ exists m q,
       _eval_node cpython311
         (ast.BinOp (ast.Constant (ast.CInt (-7))) ast.Mod (ast.Constant (ast.CInt 2)))
         libm_edom = Returns (VInt m)
       /\ _eval_node cpython311
            (ast.BinOp (ast.Constant (ast.CInt (-7))) ast.FloorDiv (ast.Constant (ast.CInt 2)))
            libm_edom = Returns (VInt q)
       /\ (m = 0 \/ Z.sgn m = Z.sgn 2)
       /\ Z.abs m < Z.abs 2
       /\ -7 = q * 2 + m
       /\ m = (-7) mod 2
       /\ q = (-7) / 2
       /\ (forall q' m',
             -7 = q' * 2 + m' ->
             m' = 0 \/ Z.sgn m' = Z.sgn 2 ->
             Z.abs m' < Z.abs 2 ->
             m' = m /\ q' = q).
Proof.
  split; [reflexivity | split; [reflexivity | split; [discriminate |]]].
  apply (eval_mod_floor cpython311 _ _ libm_edom (-7) 2);
    [reflexivity | reflexivity | discriminate].
Defined.

(** The remainder follows the sign of the divisor, on the texts too. *)
Lemma safe_eval_mod_signs (py : cpython) :
  safe_eval py "-7 % 2" = ret (VInt 1)
  /\ safe_eval py "7 % -2" = ret (VInt (-1))
  /\ safe_eval py "-7 // 2" = ret (VInt (-4)).
Proof. repeat split; vm_compute; reflexivity. Qed.

(** ** Unary operators *)

Lemma rbind_returns {A B : Type} (r : result A) (k : A -> result B) (v : B) :
  rbind r k = Returns v -> exists a, r = Returns a /\ k a = Returns v.
Proof.
  destruct r as [a|e]; simpl; intros H; [| discriminate].
  exists a. split; [reflexivity | exact H].
Qed.

(** No operator of the whitelist returns a [bool]. *)
Lemma numeric_not_bool
    (on_int : Z -> Z -> result value)
    (on_float : float -> float -> result value)
    (on_complex : complex -> complex -> result value) :
  (forall x y v, on_int x y = Returns v -> is_bool v = false) ->
  (forall x y v, on_float x y = Returns v -> is_bool v = false) ->
  (forall x y v, on_complex x y = Returns v -> is_bool v = false) ->
  forall a b v,
    operator.numeric on_int on_float on_complex a b = Returns v ->
    is_bool v = false.
Proof.
  intros Hi Hf Hc a b v. unfold operator.numeric.
  destruct (Num.as_int a) as [x|]; [destruct (Num.as_int b) as [y|]|];
    try (apply Hi);
    destruct (Num.is_complex a || Num.is_complex b); intros H;
    apply rbind_returns in H; destruct H as (u & _ & H);
    apply rbind_returns in H; destruct H as (w & _ & H);
    first [eapply Hc; exact H | eapply Hf; exact H].
Qed.

Lemma real_only_not_bool
    (on_int : Z -> Z -> result value)
    (on_float : float -> float -> result value) :
  (forall x y v, on_int x y = Returns v -> is_bool v = false) ->
  (forall x y v, on_float x y = Returns v -> is_bool v = false) ->
  forall a b v,
    operator.real_only on_int on_float a b = Returns v -> is_bool v = false.
Proof.
  intros Hi Hf a b v. unfold operator.real_only.
  destruct (Num.as_int a) as [x|]; [destruct (Num.as_int b) as [y|]|];
    try (apply Hi);
    destruct (Num.is_complex a || Num.is_complex b); intros H;
    try discriminate;
    apply rbind_returns in H; destruct H as (u & _ & H);
    apply rbind_returns in H; destruct H as (w & _ & H);
    eapply Hf; exact H.
Qed.

Ltac returned_not_bool :=
  let H := fresh "H" in
  intros H; inversion H; reflexivity.

Lemma long_true_divide_not_bool (a b : Z) (v : value) :
  Num.long_true_divide a b = Returns v -> is_bool v = false.
Proof.
  unfold Num.long_true_divide.
  destruct (b =? 0); [discriminate|].
  destruct a; try returned_not_bool;
    match goal with |- context [Float.is_inf ?q] => destruct (Float.is_inf q) end;
    try discriminate; returned_not_bool.
Qed.

Lemma long_floor_div_not_bool (a b : Z) (v : value) :
  Num.long_floor_div a b = Returns v -> is_bool v = false.
Proof.
  unfold Num.long_floor_div. destruct (b =? 0); [discriminate | returned_not_bool].
Qed.

Lemma long_mod_not_bool (a b : Z) (v : value) :
  Num.long_mod a b = Returns v -> is_bool v = false.
Proof.
  unfold Num.long_mod. destruct (b =? 0); [discriminate | returned_not_bool].
Qed.

Lemma float_div_not_bool (x y : float) (v : value) :
  Num.float_div x y = Returns v -> is_bool v = false.
Proof.
  unfold Num.float_div.
  destruct (Float.eqb y Float.zero); [discriminate | returned_not_bool].
Qed.

Lemma float_rem_not_bool (x y : float) (v : value) :
  Num.float_rem x y = Returns v -> is_bool v = false.
Proof.
  unfold Num.float_rem.
  destruct (Float.eqb y Float.zero); [discriminate | returned_not_bool].
Qed.

Lemma float_floor_div_not_bool (x y : float) (v : value) :
  Num.float_floor_div x y = Returns v -> is_bool v = false.
Proof.
  unfold Num.float_floor_div.
  destruct (Float.eqb y Float.zero); [discriminate | returned_not_bool].
Qed.

Lemma complex_div_not_bool (a b : complex) (v : value) :
  Num.complex_div a b = Returns v -> is_bool v = false.
Proof.
  unfold Num.complex_div. destruct (Num.c_quot a b) as [q [| |]];
    try discriminate; returned_not_bool.
Qed.

(** Complex exponentiation returns a complex number. *)
Lemma complex_pow_returns (a b : complex) (L : libm) (v : value) :
  Num.complex_pow a b L = Returns v -> exists c, v = VComplex c.
Proof.
  unfold Num.complex_pow.
  match goal with |- context [if ?c then _ else _] => destruct c end;
    match goal with |- context [let '(_, _) := ?cp in _] => destruct cp as [q er] end;
    match goal with |- context [Num.adjust_erange ?i ?er] =>
      destruct (Num.adjust_erange i er) end;
    intros H; inversion H; eauto.
Qed.

Lemma float_pow_not_bool (iv iw : float) (L : libm) (v : value) :
  Num.float_pow iv iw L = Returns v -> is_bool v = false.
Proof.
  unfold Num.float_pow.
  repeat match goal with
         | |- context [if ?c then _ else _] => destruct c
         end;
    try discriminate;
    try returned_not_bool;
    try (intros H; apply complex_pow_returns in H; destruct H as [c ->];
         reflexivity);
    destruct (libm_pow L (Float.abs iv) iw) as [ix er];
    match goal with |- context [Num.adjust_erange ?i ?er] =>
      destruct (Num.adjust_erange i er) end;
    try discriminate; returned_not_bool.
Qed.

Lemma pow_not_bool (a b : value) (L : libm) (v : value) :
  operator.pow a b L = Returns v -> is_bool v = false.
Proof.
  unfold operator.pow.
  destruct (Num.as_int a) as [x|]; [destruct (Num.as_int b) as [y|]|];
    repeat match goal with
           | |- context [if ?c then _ else _] => destruct c
           end;
    try (unfold ret; returned_not_bool);
    unfold bind, lift; intros H;
    repeat match type of H with
           | match ?r with _ => _ end = _ => destruct r; [| discriminate]
           end;
    first [ eapply float_pow_not_bool; exact H
          | apply complex_pow_returns in H; destruct H as [c ->]; reflexivity ].
Qed.

Lemma ops_not_bool (op : ast.operator) (f : value -> value -> M value)
    (a b : value) (L : libm) (v : value) :
  _ops op = Some f -> f a b L = Returns v -> is_bool v = false.
Proof.
  destruct op; simpl; intros Hf; inversion Hf; subst; clear Hf; unfold lift.
  - apply numeric_not_bool; intros ? ? ?; returned_not_bool.
  - apply numeric_not_bool; intros ? ? ?; returned_not_bool.
  - apply numeric_not_bool; intros ? ? ?; returned_not_bool.
  - apply numeric_not_bool;
      [apply long_true_divide_not_bool | apply float_div_not_bool
      | apply complex_div_not_bool].
  - apply real_only_not_bool; [apply long_mod_not_bool | apply float_rem_not_bool].
  - apply pow_not_bool.
  - apply real_only_not_bool;
      [apply long_floor_div_not_bool | apply float_floor_div_not_bool].
Qed.

Lemma neg_not_bool (v : value) : is_bool (operator.neg v) = false.
Proof. destruct v; reflexivity. Qed.

Lemma pos_unchanged (v : value) : is_bool v = false -> operator.pos v = v.
Proof. destruct v; simpl; [reflexivity | discriminate | reflexivity | reflexivity]. Qed.

(** An expression of the arithmetic subset never evaluates to a [bool]. *)
Lemma arithmetic_not_bool (py : cpython) (e : ast.expr) (L : libm) (v : value) :
  arithmetic e = true -> _eval_node py e L = Returns v -> is_bool v = false.
Proof.
  revert v. induction e as [l IHl op r IHr | op operand IH | c | | | | | | | |];
    intros v; simpl; try discriminate.
  - destruct (_ops op) as [f|] eqn:Hop; [| discriminate].
    intros Ha. apply andb_prop in Ha. destruct Ha as [Hl Hr].
    unfold bind.
    destruct (_eval_node py l L) as [a|ea]; [| discriminate].
    destruct (_eval_node py r L) as [b|eb]; [| discriminate].
    intros H. eapply ops_not_bool; eassumption.
  - destruct (_unary_ops op) as [f|] eqn:Hop; [| discriminate].
    intros Ha. unfold bind.
    destruct (_eval_node py operand L) as [a|ea] eqn:E; [| discriminate].
    unfold ret. intros H. inversion H; subst; clear H.
    destruct op; simpl in Hop; inversion Hop; subst; clear Hop.
    + destruct a; reflexivity.
    + apply neg_not_bool.
  - destruct c; try discriminate; intros _; simpl; unfold ret;
      intros H; inversion H; reflexivity.
Qed.

(** What [operator.neg] is on the numbers. *)
Lemma neg_is_negation (n : Z) (x : float) :
  operator.neg (VInt n) = VInt (- n)
  /\ operator.neg (VFloat x) = VFloat (Float.opp x).
Proof. split; reflexivity. Qed.

(** C7: on an expression [e] of the arithmetic subset, when [e] evaluates
    to a value the node [+e] evaluates to that value, unchanged, and the
    node [-e] to its negation: the int [- n] for the int [n], the float of
    opposite sign for a float, the complex number of opposite parts for a
    complex number; when [e] raises an error, both nodes raise it. *)
Theorem eval_unary (py : cpython) (e : ast.expr) (L : libm) :
  arithmetic e = true ->
  (forall v,
      _eval_node py e L = Returns v ->
      _eval_node py (ast.UnaryOp ast.UAdd e) L = Returns v
      /\ match v with
         | VInt n =>
             _eval_node py (ast.UnaryOp ast.USub e) L = Returns (VInt (- n))
         | VFloat x =>
             _eval_node py (ast.UnaryOp ast.USub e) L = Returns (VFloat (SFopp x))
         | VComplex c =>
             _eval_node py (ast.UnaryOp ast.USub e) L
             = Returns (VComplex (SFopp (fst c), SFopp (snd c)))
         | VBool _ => False
         end)
  /\ (forall x,
        _eval_node py e L = Raises x ->
        _eval_node py (ast.UnaryOp ast.UAdd e) L = Raises x
        /\ _eval_node py (ast.UnaryOp ast.USub e) L = Raises x).
Proof.
  intros Ha.
  rewrite (eval_node_UnaryOp py e ast.USub _ eq_refl).
  rewrite (eval_node_UnaryOp py e ast.UAdd _ eq_refl).
  unfold bind, ret. split.
  - intros v Hv. rewrite Hv.
    pose proof (arithmetic_not_bool py e L v Ha Hv) as Hb.
    split; [rewrite (pos_unchanged v Hb); reflexivity |].
    destruct v as [n | t | x | c]; [reflexivity | discriminate Hb
                                   | reflexivity | reflexivity].
  - intros x Hx. rewrite Hx. split; reflexivity.
Qed.

Lemma eval_unary_witness :
  arithmetic (ast.BinOp (ast.Constant (ast.CInt 2)) ast.Add
                        (ast.Constant (ast.CInt 3))) = true
  /\ _eval_node cpython311
       (ast.BinOp (ast.Constant (ast.CInt 2)) ast.Add (ast.Constant (ast.CInt 3)))
       libm_edom = Returns (VInt 5)
  /\ _eval_node cpython311
       (ast.UnaryOp ast.UAdd
          (ast.BinOp (ast.Constant (ast.CInt 2)) ast.Add (ast.Constant (ast.CInt 3))))
       libm_edom = Returns (VInt 5)
  /\ _eval_node cpython311
       (ast.UnaryOp ast.USub
          (ast.BinOp (ast.Constant (ast.CInt 2)) ast.Add (ast.Constant (ast.CInt 3))))
       libm_edom = Returns (VInt (- 5)).
Proof.
  split; [reflexivity |]. split; [reflexivity |].
  exact (proj1 (eval_unary cpython311
                  (ast.BinOp (ast.Constant (ast.CInt 2)) ast.Add
                             (ast.Constant (ast.CInt 3)))
                  libm_edom eq_refl)
               (VInt 5) eq_refl).
Defined.

(** The unary operators on texts. *)
Lemma safe_eval_unary_examples (py : cpython) :
  safe_eval py "-(2 + 3)" = ret (VInt (-5))
  /\ safe_eval py "+(2 + 3)" = ret (VInt 5)
  /\ safe_eval py "--5" = ret (VInt 5)
  /\ safe_eval py "-2 ** 2" = ret (VInt (-4)).
Proof. repeat split; vm_compute; reflexivity. Qed.

(** ** Division by zero *)

(** C2, as stated, fails: an int too large for a float divided by the float
    zero raises [OverflowError] from the conversion of the left operand,
    before the divisor is looked at. *)
Lemma division_by_zero_overflow :
  safe_eval cpython311 "0.0" = ret (VFloat Float.zero)
  /\ real_zero (VFloat Float.zero) = true
  /\ safe_eval cpython311 "10**400 / 0.0" = raise OverflowError
  /\ safe_eval cpython311 "10**400 / 0.0" <> raise ZeroDivisionError.
Proof.
  split; [vm_compute; reflexivity |].
  split; [reflexivity |].
  split; [vm_compute; reflexivity |].
  intros H. apply (f_equal (fun m => m libm_edom)) in H.
  vm_compute in H. discriminate H.
Qed.

(** The same for [//] and [%]; on a complex left operand these two raise
    [TypeError]. *)
Lemma division_by_zero_other_errors :
  safe_eval cpython311 "10**400 // 0.0" = raise OverflowError
  /\ safe_eval cpython311 "10**400 % 0.0" = raise OverflowError
  /\ safe_eval cpython311 "1j // 0" = raise TypeError
  /\ safe_eval cpython311 "1j % 0" = raise TypeError
  /\ safe_eval cpython311 "1j / 0" = raise ZeroDivisionError.
Proof. repeat split; vm_compute; reflexivity. Qed.

Lemma long_as_double_0 : Num.long_as_double 0 = Returns Float.zero.
Proof. reflexivity. Qed.

Lemma to_double_real_zero (v : value) :
  real_zero v = true -> exists y, Num.to_double v = Returns y /\ Float.eqb y Float.zero = true.
Proof.
  destruct v as [n | b | y | c]; simpl; intros H; try discriminate.
  - apply Z.eqb_eq in H. subst n. exists Float.zero. split; reflexivity.
  - destruct b; [discriminate |]. exists Float.zero. split; reflexivity.
  - exists y. split; [reflexivity | exact H].
Qed.

Ltac zero_divisor Hy :=
  unfold Num.float_div, Num.float_rem, Num.float_floor_div;
  rewrite Hy; reflexivity.

(** C2, amended: when the right operand of [/], [//] or [%] evaluates to a
    real zero and the left operand to a real number, one that converts to a
    float if the zero is a float, the evaluation raises
    [ZeroDivisionError]; so does the text [1 / 0]. *)
Theorem eval_division_by_zero (py : cpython) :
  (forall (l r : ast.expr) (op : ast.operator) (L : libm) (va vb : value),
      division op = true ->
      _eval_node py l L = Returns va ->
      _eval_node py r L = Returns vb ->
      real_zero vb = true ->
      Num.is_complex va = false ->
      (forall y, vb = VFloat y -> exists x, Num.to_double va = Returns x) ->
      _eval_node py (ast.BinOp l op r) L = Raises ZeroDivisionError)
  /\ safe_eval py "1 / 0" = raise ZeroDivisionError.
Proof.
  split; [| vm_compute; reflexivity].
  intros l r op L va vb Hop Hl Hr Hz Hc Hx.
  assert (Hf : exists f, _ops op = Some (fun a b => lift (f a b))
                         /\ f va vb = Raises ZeroDivisionError).
  { destruct (to_double_real_zero vb Hz) as (y & Hy & Hy0).
    assert (Hint : forall a b, Num.as_int va = Some a -> Num.as_int vb = Some b ->
                               (b =? 0) = true).
    { intros a b _ Hb. destruct vb as [n | t | ? | ?]; simpl in Hb, Hz;
        try discriminate; inversion Hb; subst; clear Hb;
        [exact Hz | destruct t; [discriminate | reflexivity]]. }
    assert (Hfl : Num.as_int va = None \/ Num.as_int vb = None ->
                  exists x, Num.to_double va = Returns x).
    { intros [Ha | Hb].
      - destruct va as [? | ? | x | ?]; simpl in Ha, Hc; try discriminate.
        exists x. reflexivity.
      - destruct vb as [? | ? | y' | ?]; simpl in Hb, Hz; try discriminate.
        apply (Hx y'). reflexivity. }
    assert (Hcb : Num.is_complex vb = false)
      by (destruct vb; simpl in Hz; try discriminate; reflexivity).
    destruct op; try discriminate Hop; eexists; (split; [reflexivity |]);
      unfold operator.truediv, operator.floordiv, operator.mod_,
             operator.numeric, operator.real_only;
      rewrite Hc, Hcb;
      (destruct (Num.as_int va) as [a|] eqn:Ea;
       [destruct (Num.as_int vb) as [b|] eqn:Eb |]);
      try (unfold Num.long_true_divide, Num.long_floor_div, Num.long_mod;
           rewrite (Hint a b eq_refl eq_refl); reflexivity);
      (destruct Hfl as [x Hxa]; [auto |]);
      rewrite Hxa, Hy; unfold rbind; zero_divisor Hy0. }
  destruct Hf as (f & Hops & Hraise).
  rewrite (eval_node_BinOp py l r op _ Hops).
  unfold bind. rewrite Hl, Hr. unfold lift. exact Hraise.
Qed.

Lemma eval_division_by_zero_witness :
  _eval_node cpython311
    (ast.BinOp (ast.Constant (ast.CInt 7)) ast.Mod (ast.Constant (ast.CFloat Float.zero)))
    libm_edom
  = Raises ZeroDivisionError.
Proof.
  apply (proj1 (eval_division_by_zero cpython311)
           (ast.Constant (ast.CInt 7)) (ast.Constant (ast.CFloat Float.zero))
           ast.Mod libm_edom (VInt 7) (VFloat Float.zero));
    try reflexivity.
  intros y _. exists (Float.of_Z 7). vm_compute. reflexivity.
Defined.

(** ** A negative base under a fractional exponent *)

(** C4, as stated, fails: the power of a negative number by a fractional
    exponent is the complex power, which has no domain error; and the
    negative infinity gives a float. *)
Lemma pow_negative_base_fractional_exponent :
  safe_eval cpython311 "(-1e999) ** 0.5" = ret (VFloat Float.inf)
  /\ safe_eval cpython311 "(-8) ** 0.5"
     = Num.complex_pow (Float.of_Z (-8), Float.zero)
                       (Float.of_scaled 1 (-1) false, Float.zero)
  /\ ~ (exists L msg,
          safe_eval cpython311 "(-8) ** 0.5" L = Raises (ValueError msg)).
Proof.
  split; [vm_compute; reflexivity |].
  assert (H : safe_eval cpython311 "(-8) ** 0.5"
              = Num.complex_pow (Float.of_Z (-8), Float.zero)
                                (Float.of_scaled 1 (-1) false, Float.zero))
    by (vm_compute; reflexivity).
  split; [exact H |].
  intros (L & msg & HL). rewrite H in HL.
  apply complex_pow_raises in HL. destruct HL; discriminate.
Qed.

Lemma float_pow_negative_fractional (iv iw : float) (L : libm) :
  Float.ltb iv Float.zero = true ->
  Float.is_finite iw = true ->
  Float.is_integer iw = false ->
  Num.float_pow iv iw L
  = (if Float.is_inf iv
     then Returns (VFloat (if Float.ltb Float.zero iw then Float.inf else Float.zero))
     else Num.complex_pow (iv, Float.zero) (iw, Float.zero) L).
Proof.
  intros Hlt Hfin Hint.
  destruct iw as [s | s | | s m e]; try discriminate.
  destruct iv as [s' | s' | | s' m' e']; try (destruct s'); try discriminate.
  - unfold Num.float_pow, Float.is_odd_integer. rewrite Hint.
    destruct s; reflexivity.
  - unfold Num.float_pow. rewrite Hint. destruct s; reflexivity.
Qed.

(** C4, amended: when the base evaluates to a negative real number [iv]
    and the exponent to a finite float [iw] that is not an integer, the
    evaluation is the complex power of [iv + 0j] by [iw + 0j] (a complex
    number, or the overflow or zero division error of that power), or, for
    the negative infinity, the float [inf] or [0.0]; it never raises a
    [ValueError]. *)
Theorem eval_pow_negative_fractional (py : cpython) (l r : ast.expr) (L : libm)
    (va : value) (iv iw : float) :
  _eval_node py l L = Returns va ->
  _eval_node py r L = Returns (VFloat iw) ->
  Num.to_double va = Returns iv ->
  Float.ltb iv Float.zero = true ->
  Float.is_finite iw = true ->
  Float.is_integer iw = false ->
  _eval_node py (ast.BinOp l ast.Pow r) L
  = (if Float.is_inf iv
     then Returns (VFloat (if Float.ltb Float.zero iw then Float.inf else Float.zero))
     else Num.complex_pow (iv, Float.zero) (iw, Float.zero) L)
  /\ (forall msg,
        _eval_node py (ast.BinOp l ast.Pow r) L <> Raises (ValueError msg))
  /\ (Float.is_inf iv = false ->
      (exists c, _eval_node py (ast.BinOp l ast.Pow r) L = Returns (VComplex c))
      \/ _eval_node py (ast.BinOp l ast.Pow r) L = Raises OverflowError
      \/ _eval_node py (ast.BinOp l ast.Pow r) L = Raises ZeroDivisionError).
Proof.
  intros Hl Hr Hv Hlt Hfin Hint.
  assert (E : _eval_node py (ast.BinOp l ast.Pow r) L
              = (if Float.is_inf iv
                 then Returns (VFloat (if Float.ltb Float.zero iw
                                       then Float.inf else Float.zero))
                 else Num.complex_pow (iv, Float.zero) (iw, Float.zero) L)).
  { rewrite (eval_node_BinOp py l r ast.Pow _ eq_refl).
    unfold bind. rewrite Hl, Hr. unfold operator.pow.
    assert (Hc : Num.is_complex va = false)
      by (destruct va; simpl in Hv; try discriminate; reflexivity).
    rewrite Hc. cbn [Num.as_int Num.is_complex orb].
    replace (match Num.as_int va with
             | Some _ | _ =>
                 (iv0 <- lift (Num.to_double va) ;;
                  iw0 <- lift (Num.to_double (VFloat iw)) ;;
                  Num.float_pow iv0 iw0)%py
             end)
      with (iv0 <- lift (Num.to_double va) ;;
            iw0 <- lift (Num.to_double (VFloat iw)) ;;
            Num.float_pow iv0 iw0)%py
      by (destruct (Num.as_int va); reflexivity).
    unfold bind, lift. rewrite Hv. cbn [Num.to_double].
    apply float_pow_negative_fractional; assumption. }
  split; [exact E |]. split.
  - intros msg. rewrite E. destruct (Float.is_inf iv); [discriminate |].
    intros H. apply complex_pow_raises in H. destruct H; discriminate.
  - intros Hinf. rewrite E, Hinf.
    destruct (Num.complex_pow (iv, Float.zero) (iw, Float.zero) L) as [v|e] eqn:Ec.
    + left. apply complex_pow_returns in Ec. destruct Ec as [c ->].
      exists c. reflexivity.
    + right. apply complex_pow_raises in Ec. destruct Ec; subst; auto.
Qed.

Lemma eval_pow_negative_fractional_witness :
  Float.ltb (Float.of_Z (-8)) Float.zero = true
  /\ Float.is_integer (Float.of_scaled 1 (-1) false) = false
  /\ _eval_node cpython311
       (ast.BinOp (ast.Constant (ast.CInt (-8))) ast.Pow
                  (ast.Constant (ast.CFloat (Float.of_scaled 1 (-1) false))))
       libm_edom
     = Num.complex_pow (Float.of_Z (-8), Float.zero)
                       (Float.of_scaled 1 (-1) false, Float.zero) libm_edom.
Proof.
  split; [vm_compute; reflexivity |].
  split; [vm_compute; reflexivity |].
  refine (proj1 (eval_pow_negative_fractional cpython311
                   (ast.Constant (ast.CInt (-8)))
                   (ast.Constant (ast.CFloat (Float.of_scaled 1 (-1) false)))
                   libm_edom (VInt (-8)) (Float.of_Z (-8))
                   (Float.of_scaled 1 (-1) false) _ _ _ _ _ _));
    vm_compute; reflexivity.
Defined.

(** ** Trimming twice *)

Lemma lstrip_head (s : string) :
  lstrip s = EmptyString
  \/ exists c t, lstrip s = String c t /\ isspace c = false.
Proof.
  induction s as [|c s IH]; simpl.
  - left. reflexivity.
  - destruct (isspace c) eqn:Hc; [exact IH |].
    right. exists c, s. split; [reflexivity | exact Hc].
Qed.

Lemma rstrip_head (c : ascii) (t : string) :
  isspace c = false -> exists u, rstrip (String c t) = String c u.
Proof.
  intros Hc. simpl. destruct (rstrip t) as [|d u].
  - rewrite Hc. exists EmptyString. reflexivity.
  - exists (String d u). reflexivity.
Qed.

Lemma rstrip_rstrip (s : string) : rstrip (rstrip s) = rstrip s.
Proof.
  induction s as [|c s IH]; [reflexivity |].
  simpl. destruct (rstrip s) as [|d u] eqn:E.
  - destruct (isspace c) eqn:Hc; [reflexivity |].
    simpl. rewrite Hc. reflexivity.
  - change (rstrip (String c (String d u))) with
      (match rstrip (String d u) with
       | EmptyString => if isspace c then EmptyString else String c EmptyString
       | t => String c t
       end).
    rewrite IH. reflexivity.
Qed.

(** [strip] is idempotent: the handlers trim the text and [safe_eval]
    trims it again. *)
Lemma strip_strip (s : string) : strip (strip s) = strip s.
Proof.
  unfold strip.
  destruct (lstrip_head s) as [E | (c & t & E & Hc)]; rewrite E.
  - reflexivity.
  - destruct (rstrip_head c t Hc) as [u Eu].
    rewrite Eu. simpl lstrip. rewrite Hc. rewrite <- Eu.
    apply rstrip_rstrip.
Qed.

Lemma safe_eval_strip (py : cpython) (s : string) :
  safe_eval py (strip s) = safe_eval py s.
Proof. unfold safe_eval. rewrite strip_strip. reflexivity. Qed.

Lemma safe_eval_strip_empty (py : cpython) (s : string) (L : libm) :
  strip s = EmptyString -> safe_eval py s L = Raises SyntaxError.
Proof. intros H. unfold safe_eval. rewrite H. reflexivity. Qed.

(** ** The handlers and the table *)

Lemma app_one_neq {A : Type} (l : list A) (x : A) : (l ++ [x])%list <> l.
Proof.
  intros H. apply (f_equal (@List.length A)) in H.
  rewrite List.length_app in H. simpl in H. lia.
Qed.

(** C8, as stated, fails: [10**4300] evaluates to an int, whose conversion
    to text raises [ValueError] (the limit of 4300 digits), so neither
    handler stores a record although the evaluation succeeded. *)
Lemma evaluated_but_not_persisted :
  safe_eval cpython311 "10**4300" = ret (VInt (10 ^ 4300))
  /\ py_str cpython311 (VInt (10 ^ 4300))
     = Raises (ValueError Repr.digit_limit)
  /\ snd (calculate cpython311 (Some "10**4300") 0 [] libm_edom) = []
  /\ snd (api_calc cpython311 (Some "10**4300") 0 [] libm_edom) = [].
Proof. repeat split; vm_compute; reflexivity. Qed.

Lemma strip_field_empty (py : cpython) (text : string) (L : libm) :
  (strip text =? "")%string = true -> safe_eval py text L = Raises SyntaxError.
Proof.
  intros H. apply String.eqb_eq in H. apply safe_eval_strip_empty. exact H.
Qed.

(** The table after a request, from the outcome of the evaluation and of
    the conversion of its result to text. *)
Lemma calculate_table (py : cpython) (field : option string) (now : Z)
    (db : database) (L : libm) :
  let text := match field with Some e => e | None => "" end in
  snd (calculate py field now db L)
  = match safe_eval py text L with
    | Returns v =>
        match py_str py v with
        | Returns s => snd (add_commit db (strip text) s now)
        | Raises _ => db
        end
    | Raises _ => db
    end.
Proof.
  intros text. unfold calculate. fold text.
  destruct (strip text =? "")%string eqn:E.
  - rewrite (strip_field_empty py text L E). reflexivity.
  - rewrite safe_eval_strip.
    destruct (safe_eval py text L) as [v|e]; [| reflexivity].
    destruct (py_str py v) as [s|e]; reflexivity.
Qed.

Lemma api_calc_table (py : cpython) (param : option string) (now : Z)
    (db : database) (L : libm) :
  let text := match param with Some e => e | None => "" end in
  snd (api_calc py param now db L)
  = match safe_eval py text L with
    | Returns v =>
        match py_str py v with
        | Returns s => snd (add_commit db (strip text) s now)
        | Raises _ => db
        end
    | Raises _ => db
    end.
Proof.
  intros text. unfold api_calc. fold text.
  destruct (strip text =? "")%string eqn:E.
  - rewrite (strip_field_empty py text L E). reflexivity.
  - rewrite safe_eval_strip.
    destruct (safe_eval py text L) as [v|e]; [| reflexivity].
    destruct (py_str py v) as [s|e]; reflexivity.
Qed.

Lemma table_changes_iff (py : cpython) (text : string) (now : Z)
    (db : database) (L : libm) :
  match safe_eval py text L with
  | Returns v =>
      match py_str py v with
      | Returns s => snd (add_commit db (strip text) s now)
      | Raises _ => db
      end
  | Raises _ => db
  end <> db
  <-> exists v s, safe_eval py text L = Returns v /\ py_str py v = Returns s.
Proof.
  destruct (safe_eval py text L) as [v|e].
  - destruct (py_str py v) as [s|e] eqn:Es.
    + split; [intros _; exists v, s; split; [reflexivity | exact Es] |].
      intros _. simpl. apply app_one_neq.
    + split; [intros H; contradiction H; reflexivity |].
      intros (v' & s' & Hv & Hs). inversion Hv; subst. congruence.
  - split; [intros H; contradiction H; reflexivity |].
    intros (v' & s' & Hv & _). discriminate.
Qed.

(** C8, amended: in both handlers a record is persisted if and only if the
    evaluation of the submitted expression succeeds and its result converts
    to text; the record then holds the trimmed expression and that text,
    and is added at the end of the table.  When the evaluation fails, the
    table is unchanged. *)
Theorem record_persisted_iff (py : cpython) (field : option string) (now : Z)
    (db : database) (L : libm) :
  let text := match field with Some e => e | None => "" end in
  (snd (calculate py field now db L) <> db
   <-> exists v s, safe_eval py text L = Returns v /\ py_str py v = Returns s)
  /\ (snd (api_calc py field now db L) <> db
      <-> exists v s, safe_eval py text L = Returns v /\ py_str py v = Returns s)
  /\ (forall v s,
        safe_eval py text L = Returns v -> py_str py v = Returns s ->
        let calc := {| Calculation.id := next_id db;
                       Calculation.expression := strip text;
                       Calculation.result := s;
                       Calculation.created_at := now |} in
        snd (calculate py field now db L) = (db ++ [calc])%list
        /\ snd (api_calc py field now db L) = (db ++ [calc])%list)
  /\ (forall e,
        safe_eval py text L = Raises e ->
        snd (calculate py field now db L) = db
        /\ snd (api_calc py field now db L) = db).
Proof.
  intros text.
  pose proof (calculate_table py field now db L) as Hc.
  pose proof (api_calc_table py field now db L) as Ha.
  fold text in Hc, Ha. cbv zeta in Hc, Ha.
  split; [rewrite Hc; apply table_changes_iff |].
  split; [rewrite Ha; apply table_changes_iff |].
  split.
  - intros v s Hv Hs calc. rewrite Hc, Ha, Hv, Hs. split; reflexivity.
  - intros e He. rewrite Hc, Ha, He. split; reflexivity.
Qed.

(** The texts [2 + 3] and [1 / 0] through both handlers, on an empty
    table. *)
Lemma record_persisted_examples :
  snd (calculate cpython311 (Some " 2 + 3 ") 7 [] libm_edom)
  = [ {| Calculation.id := 1; Calculation.expression := "2 + 3";
         Calculation.result := "5"; Calculation.created_at := 7 |} ]
  /\ snd (api_calc cpython311 (Some " 2 + 3 ") 7 [] libm_edom)
     = [ {| Calculation.id := 1; Calculation.expression := "2 + 3";
            Calculation.result := "5"; Calculation.created_at := 7 |} ]
  /\ snd (calculate cpython311 (Some "1 / 0") 7 [] libm_edom) = []
  /\ snd (api_calc cpython311 (Some "1 / 0") 7 [] libm_edom) = [].
Proof. repeat split; vm_compute; reflexivity. Qed.

(** ** The evaluation and the state *)

(** The answer of [/api/calc], from the evaluation of the text alone. *)
Lemma api_calc_outcome (py : cpython) (s : string) (now : Z) (db : database)
    (L : libm) :
  outcome (fst (api_calc py (Some s) now db L))
  = if (strip s =? "")%string then None
    else Some (v <~ safe_eval py s L ;;
               t <~ py_str py v ;;
               Returns (strip s, t)).
Proof.
  unfold api_calc. destruct (strip s =? "")%string; [reflexivity |].
  rewrite safe_eval_strip.
  destruct (safe_eval py s L) as [v|e]; [| reflexivity].
  simpl. destruct (py_str py v) as [t|e]; reflexivity.
Qed.

(** The handlers do not feed the table or the time into the evaluation:
    whatever the table holds and whatever the time, two requests on the
    same text are answered with the same outcome, also a second request on
    the table left by the first. *)
Lemma handlers_outcome_independent_of_table (py : cpython) (s : string) (L : libm)
    (now1 now2 : Z) (db1 db2 : database) :
  outcome (fst (api_calc py (Some s) now1 db1 L))
  = outcome (fst (api_calc py (Some s) now2 db2 L))
  /\ fst (calculate py (Some s) now1 db1 L)
     = fst (calculate py (Some s) now2 db2 L)
  /\ outcome (fst (api_calc py (Some s) now2
                     (snd (api_calc py (Some s) now1 db1 L)) L))
     = outcome (fst (api_calc py (Some s) now1 db1 L))
  /\ outcome (fst (api_calc py (Some s) now1 db1 L))
     = (if (strip s =? "")%string then None
        else Some (v <~ safe_eval py s L ;;
                   t <~ py_str py v ;;
                   Returns (strip s, t))).
Proof.
  split; [rewrite !api_calc_outcome; reflexivity |].
  split.
  - unfold calculate. destruct (strip s =? "")%string; [reflexivity |].
    destruct (safe_eval py (strip s) L) as [v|e]; [| reflexivity].
    destruct (py_str py v) as [t|e]; reflexivity.
  - split; [rewrite !api_calc_outcome; reflexivity | apply api_calc_outcome].
Qed.

(** * Further properties of the evaluator *)

(** ** The whitelist *)

(** A tree with a node outside the whitelist, at whatever depth, never
    evaluates to a value: both operands of a binary operation are evaluated
    before the operation, so the node is reached unless an error comes
    first. *)
Theorem eval_node_outside_whitelist (py : cpython) (e : ast.expr) (L : libm) :
  whitelisted py e = false ->
  exists x, _eval_node py e L = Raises x.
Proof.
  induction e as [l IHl op r IHr | op operand IH | c | | | | | | | |];
    simpl; intros Hw; try (eexists; reflexivity).
  - destruct (_ops op) as [f|]; [| eexists; reflexivity].
    unfold bind. apply andb_false_iff in Hw. destruct Hw as [Hw | Hw].
    + destruct (IHl Hw) as [x Hx]. rewrite Hx. exists x. reflexivity.
    + destruct (_eval_node py l L) as [a|x]; [| exists x; reflexivity].
      destruct (IHr Hw) as [x Hx]. rewrite Hx. exists x. reflexivity.
  - destruct (_unary_ops op) as [f|]; [| eexists; reflexivity].
    unfold bind. destruct (IH Hw) as [x Hx]. rewrite Hx. exists x. reflexivity.
  - unfold whitelisted_constant in Hw.
    destruct (int_or_float c); [discriminate |].
    destruct (if ast_has_Num py then Num_n c else None); [discriminate |].
    eexists. reflexivity.
Qed.

Lemma eval_node_outside_whitelist_witness :
  whitelisted cpython311
    (ast.BinOp (ast.Constant (ast.CInt 1)) ast.Add
       (ast.Call (ast.Name "f") [ast.Constant (ast.CInt 2)])) = false
  /\ exists x,
       _eval_node cpython311
         (ast.BinOp (ast.Constant (ast.CInt 1)) ast.Add
            (ast.Call (ast.Name "f") [ast.Constant (ast.CInt 2)]))
         libm_edom = Raises x.
Proof.
  split; [reflexivity |].
  apply (eval_node_outside_whitelist cpython311
           (ast.BinOp (ast.Constant (ast.CInt 1)) ast.Add
              (ast.Call (ast.Name "f") [ast.Constant (ast.CInt 2)]))
           libm_edom).
  reflexivity.
Defined.

(** On a tree of the whitelist the error "Unsupported or unsafe expression"
    is never raised: an error there comes from an operator. *)
Theorem eval_node_whitelisted_supported (py : cpython) (e : ast.expr)
    (L : libm) :
  whitelisted py e = true ->
  _eval_node py e L <> Raises (ValueError unsupported).
Proof.
  induction e as [l IHl op r IHr | op operand IH | c | | | | | | | |];
    simpl; intros Hw; try discriminate.
  - destruct (_ops op) as [f|] eqn:Hop; [| discriminate].
    apply andb_prop in Hw. destruct Hw as [Hl Hr]. unfold bind.
    destruct (_eval_node py l L) as [a|x] eqn:El.
    + destruct (_eval_node py r L) as [b|y] eqn:Er.
      * intros H. apply (ops_raise op f a b L _ Hop) in H.
        destruct H as [H | [H | [H | H]]]; discriminate H.
      * intros H. apply (IHr Hr). exact H.
    + intros H. apply (IHl Hl). exact H.
  - destruct (_unary_ops op) as [f|]; [| discriminate].
    unfold bind. destruct (_eval_node py operand L) as [a|x] eqn:E.
    + discriminate.
    + intros H. apply (IH Hw). exact H.
  - unfold whitelisted_constant in Hw.
    destruct (int_or_float c); [discriminate |].
    destruct (if ast_has_Num py then Num_n c else None); discriminate.
Qed.

Lemma eval_node_whitelisted_supported_witness :
  whitelisted cpython311
    (ast.BinOp (ast.Constant (ast.CInt 1)) ast.Div (ast.Constant (ast.CInt 0)))
  = true
  /\ _eval_node cpython311
       (ast.BinOp (ast.Constant (ast.CInt 1)) ast.Div (ast.Constant (ast.CInt 0)))
       libm_edom
     <> Raises (ValueError unsupported).
Proof.
  split; [reflexivity |].
  apply (eval_node_whitelisted_supported cpython311
           (ast.BinOp (ast.Constant (ast.CInt 1)) ast.Div
                      (ast.Constant (ast.CInt 0)))
           libm_edom).
  reflexivity.
Defined.

(** ** Expressions on ints *)

(** An expression on ints alone evaluates to an int, exactly, or raises
    [ZeroDivisionError]: no float comes in, and no other error. *)
Theorem eval_int_expr (py : cpython) (e : ast.expr) (L : libm) :
  int_expr e = true ->
  (exists n, _eval_node py e L = Returns (VInt n))
  \/ _eval_node py e L = Raises ZeroDivisionError.
Proof.
  induction e as [l IHl op r IHr | op operand IH | c | | | | | | | |];
    simpl int_expr; intros Hi; try discriminate.
  - assert (Hlr : int_expr l = true /\ int_expr r = true)
      by (destruct op; try discriminate; apply andb_prop; exact Hi).
    destruct Hlr as [Hl Hr].
    assert (Hop : exists f, _ops op = Some (fun a b => lift (f a b)) /\
                  forall a b, (exists n, f (VInt a) (VInt b) = Returns (VInt n))
                              \/ f (VInt a) (VInt b) = Raises ZeroDivisionError).
    { destruct op; try discriminate; eexists; (split; [reflexivity |]);
        intros a b;
        unfold operator.add, operator.sub, operator.mul, operator.floordiv,
               operator.mod_, operator.numeric, operator.real_only;
        cbn [Num.as_int]; unfold Num.long_floor_div, Num.long_mod;
        try (left; eexists; reflexivity);
        destruct (b =? 0); [right; reflexivity | left; eexists; reflexivity
                           | right; reflexivity | left; eexists; reflexivity]. }
    destruct Hop as (f & Hf & Hres).
    rewrite (eval_node_BinOp py l r op _ Hf). unfold bind.
    destruct (IHl Hl) as [[a Ha] | Ha]; rewrite Ha; [| right; reflexivity].
    destruct (IHr Hr) as [[b Hb] | Hb]; rewrite Hb; [| right; reflexivity].
    unfold lift. exact (Hres a b).
  - destruct (_unary_ops op) as [f|] eqn:Hop; [| discriminate].
    rewrite (eval_node_UnaryOp py operand op f Hop). unfold bind, ret.
    destruct (IH Hi) as [[a Ha] | Ha]; rewrite Ha; [| right; reflexivity].
    left. destruct op; simpl in Hop; inversion Hop; subst; eexists; reflexivity.
  - destruct c; try discriminate. left. eexists. reflexivity.
Qed.

Lemma eval_int_expr_witness :
  int_expr (ast.BinOp (ast.Constant (ast.CInt 7)) ast.FloorDiv
                      (ast.UnaryOp ast.USub (ast.Constant (ast.CInt 2)))) = true
  /\ ((exists n,
         _eval_node cpython311
           (ast.BinOp (ast.Constant (ast.CInt 7)) ast.FloorDiv
                      (ast.UnaryOp ast.USub (ast.Constant (ast.CInt 2))))
           libm_edom = Returns (VInt n))
      \/ _eval_node cpython311
           (ast.BinOp (ast.Constant (ast.CInt 7)) ast.FloorDiv
                      (ast.UnaryOp ast.USub (ast.Constant (ast.CInt 2))))
           libm_edom = Raises ZeroDivisionError).
Proof.
  split; [reflexivity |].
  apply (eval_int_expr cpython311
           (ast.BinOp (ast.Constant (ast.CInt 7)) ast.FloorDiv
                      (ast.UnaryOp ast.USub (ast.Constant (ast.CInt 2))))
           libm_edom).
  reflexivity.
Defined.

(** ** Negating twice *)

Lemma neg_neg (v : value) : is_bool v = false -> operator.neg (operator.neg v) = v.
Proof.
  destruct v as [n | b | x | [re im]]; simpl; intros H; try discriminate.
  - rewrite Z.opp_involutive. reflexivity.
  - destruct x as [s | s | | s m e]; simpl; try rewrite negb_involutive;
      reflexivity.
  - unfold Num.c_neg. simpl.
    destruct re as [s | s | | s m e]; destruct im as [s' | s' | | s' m' e'];
      simpl; rewrite ?negb_involutive; reflexivity.
Qed.

(** On the arithmetic subset two negations cancel: [--e] evaluates as
    [e], value or error. *)
Theorem eval_double_negation (py : cpython) (e : ast.expr) (L : libm) :
  arithmetic e = true ->
  _eval_node py (ast.UnaryOp ast.USub (ast.UnaryOp ast.USub e)) L
  = _eval_node py e L.
Proof.
  intros Ha.
  rewrite (eval_node_UnaryOp py _ ast.USub _ eq_refl). unfold bind.
  rewrite (eval_node_UnaryOp py e ast.USub _ eq_refl). unfold bind, ret.
  destruct (_eval_node py e L) as [v|x] eqn:E; [| reflexivity].
  rewrite (neg_neg v (arithmetic_not_bool py e L v Ha E)). reflexivity.
Qed.

Lemma eval_double_negation_witness :
  arithmetic (ast.Constant (ast.CFloat Float.one)) = true
  /\ _eval_node cpython311
       (ast.UnaryOp ast.USub
          (ast.UnaryOp ast.USub (ast.Constant (ast.CFloat Float.one))))
       libm_edom
     = _eval_node cpython311 (ast.Constant (ast.CFloat Float.one)) libm_edom.
Proof.
  split; [reflexivity |].
  apply (eval_double_negation cpython311
           (ast.Constant (ast.CFloat Float.one)) libm_edom).
  reflexivity.
Defined.

(** ** White space around the expression *)

Lemma all_chars_app (p : ascii -> bool) (a b : string) :
  Lex.all_chars p (a ++ b) = Lex.all_chars p a && Lex.all_chars p b.
Proof.
  induction a as [|c a IH]; simpl; [reflexivity |].
  rewrite IH. apply andb_assoc.
Qed.

Lemma lstrip_empty_all_space (s : string) :
  lstrip s = EmptyString -> Lex.all_chars isspace s = true.
Proof.
  induction s as [|c s IH]; simpl; [reflexivity |].
  destruct (isspace c); [exact IH | discriminate].
Qed.

Lemma lstrip_app_space (a s : string) :
  Lex.all_chars isspace a = true -> lstrip (a ++ s) = lstrip s.
Proof.
  induction a as [|c a IH]; simpl; intros H; [reflexivity |].
  apply andb_prop in H. destruct H as [Hc Ha]. rewrite Hc. exact (IH Ha).
Qed.

Lemma lstrip_app_nonempty (s b : string) :
  lstrip s <> EmptyString -> lstrip (s ++ b) = lstrip s ++ b.
Proof.
  induction s as [|c s IH]; simpl; intros H.
  - contradiction H. reflexivity.
  - destruct (isspace c); [exact (IH H) | reflexivity].
Qed.

Lemma rstrip_all_space (b : string) :
  Lex.all_chars isspace b = true -> rstrip b = EmptyString.
Proof.
  induction b as [|c b IH]; simpl; intros H; [reflexivity |].
  apply andb_prop in H. destruct H as [Hc Hb].
  rewrite (IH Hb), Hc. reflexivity.
Qed.

Lemma rstrip_app_space (s b : string) :
  Lex.all_chars isspace b = true -> rstrip (s ++ b) = rstrip s.
Proof.
  intros Hb. induction s as [|c s IH]; simpl.
  - apply rstrip_all_space. exact Hb.
  - rewrite IH. reflexivity.
Qed.

Lemma strip_padding (a s b : string) :
  Lex.all_chars isspace a = true ->
  Lex.all_chars isspace b = true ->
  strip (a ++ s ++ b) = strip s.
Proof.
  intros Ha Hb. unfold strip. rewrite (lstrip_app_space a _ Ha).
  destruct (lstrip s) as [|c t] eqn:E.
  - apply lstrip_empty_all_space in E.
    assert (H : Lex.all_chars isspace (s ++ b) = true)
      by (rewrite all_chars_app, E, Hb; reflexivity).
    rewrite (lstrip_all_space _ H). reflexivity.
  - rewrite lstrip_app_nonempty by (rewrite E; discriminate).
    rewrite E. apply rstrip_app_space. exact Hb.
Qed.

(** White space before and after the expression does not change the
    evaluation: the padded text gives the value or the error of the text
    itself. *)
Theorem safe_eval_padding (py : cpython) (a s b : string) :
  Lex.all_chars isspace a = true ->
  Lex.all_chars isspace b = true ->
  safe_eval py (a ++ s ++ b) = safe_eval py s.
Proof.
  intros Ha Hb. unfold safe_eval. rewrite (strip_padding a s b Ha Hb).
  reflexivity.
Qed.

Lemma safe_eval_padding_witness :
  safe_eval cpython311 ("  " ++ "2 + 3" ++ " ") = safe_eval cpython311 "2 + 3".
Proof.
  apply (safe_eval_padding cpython311 "  " "2 + 3" " "); reflexivity.
Defined.

(** ** The handlers *)

(** A request without the field, or with a field of white space only, is
    answered without evaluating anything: the form handler flashes "Enter
    an expression." and goes back to the home page, the API answers 400 with
    the error on the missing parameter, and the table is left as it is. *)
Theorem handlers_blank_expression (py : cpython) (field : option string)
    (now : Z) (db : database) (L : libm) :
  Lex.all_chars isspace (match field with Some e => e | None => "" end) = true ->
  calculate py field now db L = (redirect "home" (Some EnterAnExpression), db)
  /\ api_calc py field now db L = (jsonify ExprRequired 400, db).
Proof.
  intros H. unfold calculate, api_calc.
  rewrite (strip_all_space _ H). split; reflexivity.
Qed.

Lemma handlers_blank_expression_witness :
  calculate cpython311 None 3 [] libm_edom
  = (redirect "home" (Some EnterAnExpression), [])
  /\ api_calc cpython311 None 3 [] libm_edom = (jsonify ExprRequired 400, []).
Proof.
  apply (handlers_blank_expression cpython311 None 3 [] libm_edom).
  reflexivity.
Defined.

(** The answer of a handler tells what happened to the table.  The API
    answers 200 with a record exactly when that record has been added at the
    end of the table, and 400 with an error otherwise, the table unchanged;
    the form handler goes to the history page in the first case and back
    to the home page with a flashed message in the second. *)
Theorem handlers_answer_and_table (py : cpython) (field : option string)
    (now : Z) (db : database) (L : libm) :
  ((exists c, api_calc py field now db L
              = (jsonify (AsDict c) 200, (db ++ [c])%list))
   \/ (exists body, api_calc py field now db L = (jsonify body 400, db)
                    /\ (body = ExprRequired \/ exists e, body = ErrorOf e)))
  /\ ((exists c, calculate py field now db L
                 = (redirect "history" None, (db ++ [c])%list))
      \/ (exists m, calculate py field now db L
                    = (redirect "home" (Some m), db))).
Proof.
  unfold api_calc, calculate.
  destruct (strip match field with Some e => e | None => "" end =? "")%string.
  - split; right; eexists; [split; [reflexivity | left; reflexivity]
                           | reflexivity].
  - destruct (safe_eval py _ L) as [v|e].
    + destruct (py_str py v) as [s|e].
      * split; left; eexists; reflexivity.
      * split; right; eexists;
          [split; [reflexivity | right; eexists; reflexivity] | reflexivity].
    + split; right; eexists;
        [split; [reflexivity | right; eexists; reflexivity] | reflexivity].
Qed.

(** ** The table along the requests *)

Lemma max_id_nonneg (db : database) :
  0 <= fold_right (fun c m => Z.max (Calculation.id c) m) 0 db.
Proof. induction db as [|c db IH]; simpl; lia. Qed.

Lemma ids_above_app (db : database) (m : Z) (c : Calculation.t) :
  ids_above m db = true ->
  Z.max m (fold_right (fun c m => Z.max (Calculation.id c) m) 0 db)
  < Calculation.id c ->
  ids_above m (db ++ [c])%list = true.
Proof.
  revert m. induction db as [|d db IH]; simpl; intros m Hm Hlt.
  - rewrite andb_true_r. apply Z.ltb_lt. lia.
  - apply andb_prop in Hm. destruct Hm as [Hd Hrest].
    rewrite Hd. simpl. apply IH; [exact Hrest | lia].
Qed.

Lemma add_commit_ids_above (db : database) (expression result : string)
    (now : Z) :
  ids_above 0 db = true ->
  ids_above 0 (snd (add_commit db expression result now)) = true.
Proof.
  intros H. unfold add_commit. cbn [snd].
  apply ids_above_app; [exact H |].
  unfold next_id. cbn [Calculation.id].
  pose proof (max_id_nonneg db). lia.
Qed.

(** What a request does to the table: nothing, or one [add_commit] of the
    trimmed text with the text of its value. *)
Lemma handle_cases (py : cpython) (L : libm) (req : request) (now : Z)
    (db : database) :
  handle py L req now db = db
  \/ exists text v s,
       safe_eval py text L = Returns v /\ py_str py v = Returns s
       /\ handle py L req now db = snd (add_commit db (strip text) s now).
Proof.
  destruct req as [field | param |]; cbn [handle].
  - rewrite calculate_table.
    destruct (safe_eval py _ L) as [v|e] eqn:Ev; [| left; reflexivity].
    destruct (py_str py v) as [s|e] eqn:Es; [| left; reflexivity].
    right. eexists _, v, s. split; [exact Ev | split; [exact Es | reflexivity]].
  - rewrite api_calc_table.
    destruct (safe_eval py _ L) as [v|e] eqn:Ev; [| left; reflexivity].
    destruct (py_str py v) as [s|e] eqn:Es; [| left; reflexivity].
    right. eexists _, v, s. split; [exact Ev | split; [exact Es | reflexivity]].
  - left. reflexivity.
Qed.

Lemma handle_ids_above (py : cpython) (L : libm) (req : request) (now : Z)
    (db : database) :
  ids_above 0 db = true -> ids_above 0 (handle py L req now db) = true.
Proof.
  intros H. destruct (handle_cases py L req now db) as [E | (t & v & s & _ & _ & E)];
    rewrite E; [exact H | apply add_commit_ids_above; exact H].
Qed.

Lemma serve_ids_above (py : cpython) (L : libm) (reqs : list (request * Z))
    (db : database) :
  ids_above 0 db = true -> ids_above 0 (serve py L reqs db) = true.
Proof.
  revert db. induction reqs as [|[req now] reqs IH]; simpl; intros db H.
  - exact H.
  - apply IH. apply handle_ids_above. exact H.
Qed.

(** The keys of the table stay positive and strictly increasing along
    every sequence of requests, so no two rows share a key. *)
Theorem serve_keeps_keys_increasing (py : cpython) (L : libm)
    (reqs : list (request * Z)) (db : database) :
  ids_above 0 db = true -> ids_above 0 (serve py L reqs db) = true.
Proof. apply serve_ids_above. Qed.

Lemma serve_keeps_keys_increasing_witness :
  ids_above 0
    (serve cpython311 libm_edom
       [(POST_calculate (Some "2 + 3"), 1); (GET_api_calc (Some "1 / 0"), 2);
        (GET_history, 3); (GET_api_calc (Some "7 % 2"), 4)]
       []) = true.
Proof.
  apply (serve_keeps_keys_increasing cpython311 libm_edom
           [(POST_calculate (Some "2 + 3"), 1); (GET_api_calc (Some "1 / 0"), 2);
            (GET_history, 3); (GET_api_calc (Some "7 % 2"), 4)]
           []).
  reflexivity.
Defined.

(** No request removes or changes a row: the table after a sequence of
    requests is the table before it followed by the new rows, at most one
    for each request. *)
Theorem serve_extends_table (py : cpython) (L : libm)
    (reqs : list (request * Z)) (db : database) :
  exists rows,
    serve py L reqs db = (db ++ rows)%list
    /\ (List.length rows <= List.length reqs)%nat.
Proof.
  revert db. induction reqs as [|[req now] reqs IH]; simpl; intros db.
  - exists []. rewrite List.app_nil_r. split; [reflexivity | apply Nat.le_refl].
  - destruct (IH (handle py L req now db)) as (rows & E & Hlen). rewrite E.
    destruct (handle_cases py L req now db) as [H | (t & v & s & _ & _ & H)];
      rewrite H.
    + exists rows. split; [reflexivity | lia].
    + unfold add_commit. cbn [snd]. eexists (_ :: rows).
      rewrite <- List.app_assoc. split; [reflexivity | simpl; lia].
Qed.

Lemma safe_eval_returns_length (py : cpython) (s : string) (L : libm) (v : value) :
  safe_eval py s L = Returns v -> (String.length (strip s) <= 100)%nat.
Proof.
  unfold safe_eval.
  destruct (Nat.ltb_spec 100 (String.length (strip s))) as [Hlt | Hge];
    [discriminate | intros _; exact Hge].
Qed.

Lemma safe_eval_returns_nonempty (py : cpython) (s : string) (L : libm) (v : value) :
  safe_eval py s L = Returns v -> strip s <> EmptyString.
Proof.
  intros H E. rewrite (safe_eval_strip_empty py s L E) in H. discriminate.
Qed.

Lemma handle_rows_ok (py : cpython) (L : libm) (req : request) (now : Z)
    (db : database) :
  Forall (row_ok py L) db -> Forall (row_ok py L) (handle py L req now db).
Proof.
  intros H.
  destruct (handle_cases py L req now db) as [E | (t & v & s & Hv & Hs & E)];
    rewrite E; [exact H |].
  unfold add_commit. cbn [snd]. apply Forall_app. split; [exact H |].
  constructor; [| constructor].
  unfold row_ok. cbn [Calculation.expression Calculation.result].
  split; [apply strip_strip |].
  split; [exact (safe_eval_returns_nonempty py t L v Hv) |].
  split; [exact (safe_eval_returns_length py t L v Hv) |].
  exists v. rewrite safe_eval_strip. split; [exact Hv | exact Hs].
Qed.

(** Every row of the table holds an expression that evaluates without
    error and the text of its value: if that is so of a table, it is so
    after any sequence of requests on it.  The stored expression is trimmed,
    not empty and of at most 100 characters. *)
Theorem serve_rows_ok (py : cpython) (L : libm) (reqs : list (request * Z))
    (db : database) :
  Forall (row_ok py L) db -> Forall (row_ok py L) (serve py L reqs db).
Proof.
  revert db. induction reqs as [|[req now] reqs IH]; simpl; intros db H.
  - exact H.
  - apply IH. apply handle_rows_ok. exact H.
Qed.

Lemma serve_rows_ok_witness :
  Forall (row_ok cpython311 libm_edom)
    (serve cpython311 libm_edom
       [(POST_calculate (Some " 2 + 3 "), 1); (GET_api_calc (Some "a + 1"), 2)]
       []).
Proof.
  apply (serve_rows_ok cpython311 libm_edom
           [(POST_calculate (Some " 2 + 3 "), 1); (GET_api_calc (Some "a + 1"), 2)]
           []).
  constructor.
Defined.

(** ** The history page *)

Lemma insert_desc_length (c : Calculation.t) (rows : list Calculation.t) :
  List.length (insert_desc c rows) = S (List.length rows).
Proof.
  induction rows as [|r rows IH]; simpl; [reflexivity |].
  destruct (Calculation.id r <? Calculation.id c); simpl; [reflexivity |].
  rewrite IH. reflexivity.
Qed.

Lemma insert_desc_In (x c : Calculation.t) (rows : list Calculation.t) :
  In x (insert_desc c rows) <-> x = c \/ In x rows.
Proof.
  induction rows as [|r rows IH]; simpl.
  - split; [intros [H | []]; left; symmetry; exact H
           | intros [H | []]; left; symmetry; exact H].
  - destruct (Calculation.id r <? Calculation.id c); simpl.
    + split; [intros [H | H]; [left; symmetry; exact H | right; exact H]
             | intros [H | H]; [left; symmetry; exact H | right; exact H]].
    + rewrite IH. tauto.
Qed.

Lemma order_by_id_desc_In (x : Calculation.t) (rows : list Calculation.t) :
  In x (order_by_id_desc rows) <-> In x rows.
Proof.
  induction rows as [|r rows IH]; simpl; [tauto |].
  rewrite insert_desc_In, IH. split; intros [H | H]; auto.
Qed.

Lemma order_by_id_desc_length (rows : list Calculation.t) :
  List.length (order_by_id_desc rows) = List.length rows.
Proof.
  induction rows as [|r rows IH]; simpl; [reflexivity |].
  rewrite insert_desc_length, IH. reflexivity.
Qed.

Lemma descending_tail (a : Calculation.t) (rows : list Calculation.t) :
  descending (a :: rows) = true -> descending rows = true.
Proof.
  destruct rows as [|b rows]; [reflexivity |].
  intros H. change (descending (a :: b :: rows))
    with ((Calculation.id b <=? Calculation.id a) && descending (b :: rows)) in H.
  apply andb_prop in H. exact (proj2 H).
Qed.

Lemma insert_desc_descending (c : Calculation.t) (rows : list Calculation.t) :
  descending rows = true -> descending (insert_desc c rows) = true.
Proof.
  induction rows as [|r rows IH]; intros H; [reflexivity |].
  cbn [insert_desc].
  destruct (Calculation.id r <? Calculation.id c) eqn:E.
  - change (descending (c :: r :: rows))
      with ((Calculation.id r <=? Calculation.id c) && descending (r :: rows)).
    rewrite H, andb_true_r. apply Z.leb_le. apply Z.ltb_lt in E. lia.
  - pose proof (IH (descending_tail r rows H)) as IH'.
    destruct rows as [|b rows].
    + cbn [insert_desc].
      change (descending [r; c])
        with ((Calculation.id c <=? Calculation.id r) && true).
      rewrite andb_true_r. apply Z.leb_le. apply Z.ltb_ge in E. exact E.
    + change (descending (r :: b :: rows))
        with ((Calculation.id b <=? Calculation.id r) && descending (b :: rows))
        in H.
      apply andb_prop in H. destruct H as [Hbr Hrest].
      cbn [insert_desc] in IH' |- *.
      destruct (Calculation.id b <? Calculation.id c) eqn:Eb.
      * change (descending (r :: c :: b :: rows))
          with ((Calculation.id c <=? Calculation.id r)
                && descending (c :: b :: rows)).
        rewrite IH', andb_true_r. apply Z.leb_le. apply Z.ltb_ge in E. exact E.
      * change (descending (r :: b :: insert_desc c rows))
          with ((Calculation.id b <=? Calculation.id r)
                && descending (b :: insert_desc c rows)).
        rewrite Hbr, IH'. reflexivity.
Qed.

Lemma order_by_id_desc_descending (rows : list Calculation.t) :
  descending (order_by_id_desc rows) = true.
Proof.
  induction rows as [|r rows IH]; [reflexivity |].
  simpl. apply insert_desc_descending. exact IH.
Qed.

Lemma firstn_descending (n : nat) (rows : list Calculation.t) :
  descending rows = true -> descending (firstn n rows) = true.
Proof.
  revert rows. induction n as [|n IH]; intros rows H; [reflexivity |].
  destruct rows as [|a rows]; [reflexivity |].
  pose proof (IH rows (descending_tail a rows H)) as IH'.
  cbn [firstn]. destruct rows as [|b rows]; [destruct n; reflexivity |].
  destruct n as [|n]; [reflexivity |].
  change (descending (a :: b :: rows))
    with ((Calculation.id b <=? Calculation.id a) && descending (b :: rows)) in H.
  apply andb_prop in H. destruct H as [Hba _].
  cbn [firstn] in IH' |- *.
  change (descending (a :: b :: firstn n rows))
    with ((Calculation.id b <=? Calculation.id a)
          && descending (b :: firstn n rows)).
  rewrite Hba, IH'. reflexivity.
Qed.

Lemma firstn_In (n : nat) (rows : list Calculation.t) (c : Calculation.t) :
  In c (firstn n rows) -> In c rows.
Proof.
  revert rows. induction n as [|n IH]; intros rows H; [contradiction |].
  destruct rows as [|a rows]; [contradiction |].
  cbn [firstn] in H. destruct H as [H | H]; [left; exact H | right].
  apply IH. exact H.
Qed.

(** The history page shows at most 50 rows, all of them rows of the table,
    by decreasing key; it shows the whole table while that has at most 50
    rows. *)
Theorem history_rows (db : database) :
  (List.length (history db) <= 50)%nat
  /\ List.length (history db) = Nat.min 50 (List.length db)
  /\ (forall c, In c (history db) -> In c db)
  /\ descending (history db) = true
  /\ ((List.length db <= 50)%nat -> forall c, In c db -> In c (history db)).
Proof.
  unfold history. split; [apply List.firstn_le_length |].
  split; [rewrite List.length_firstn, order_by_id_desc_length; reflexivity |].
  split.
  - intros c H. apply order_by_id_desc_In. eapply firstn_In; exact H.
  - split; [apply firstn_descending; apply order_by_id_desc_descending |].
    intros Hlen c H. rewrite List.firstn_all2.
    + apply order_by_id_desc_In. exact H.
    + rewrite order_by_id_desc_length. exact Hlen.
Qed.

Lemma ids_above_lt (m : Z) (db : database) (r : Calculation.t) :
  ids_above m db = true -> In r db -> m < Calculation.id r.
Proof.
  revert m. induction db as [|d db IH]; simpl; intros m H Hin; [contradiction |].
  apply andb_prop in H. destruct H as [Hd Hrest]. apply Z.ltb_lt in Hd.
  destruct Hin as [-> | Hin]; [exact Hd |].
  specialize (IH _ Hrest Hin). lia.
Qed.

Lemma insert_desc_last (c : Calculation.t) (rows : list Calculation.t) :
  (forall r, In r rows -> Calculation.id c < Calculation.id r) ->
  insert_desc c rows = (rows ++ [c])%list.
Proof.
  induction rows as [|r rows IH]; simpl; intros H; [reflexivity |].
  assert (E : (Calculation.id r <? Calculation.id c) = false)
    by (apply Z.ltb_ge; specialize (H r (or_introl eq_refl)); lia).
  rewrite E, IH; [reflexivity |].
  intros r' Hr'. apply H. right. exact Hr'.
Qed.

Lemma order_by_id_desc_rev (m : Z) (db : database) :
  ids_above m db = true -> order_by_id_desc db = rev db.
Proof.
  revert m. induction db as [|d db IH]; simpl; intros m H; [reflexivity |].
  apply andb_prop in H. destruct H as [_ Hrest].
  rewrite (IH _ Hrest). apply insert_desc_last.
  intros r Hr. apply (ids_above_lt _ db r Hrest). apply List.in_rev. exact Hr.
Qed.

(** On a table filled by the handlers from the empty one, the history page
    shows the rows from the last stored backwards, 50 at most: the record
    of the latest successful calculation comes first. *)
Theorem history_newest_first (py : cpython) (L : libm)
    (reqs : list (request * Z)) :
  history (serve py L reqs []) = firstn 50 (rev (serve py L reqs [])).
Proof.
  unfold history.
  rewrite (order_by_id_desc_rev 0 _ (serve_ids_above py L reqs [] eq_refl)).
  reflexivity.
Qed.
